(** * whisper-service/main.py: the Icelandic Whisper speech-to-text service

    A shallow embedding of the FastAPI service of [whisper-service/main.py]
    and the properties of its three endpoints.

    Python values are modelled as the code has them: [str] is a sequence of
    Unicode code points, [bytes] a sequence of bytes, [int] is [Z], numpy
    arrays of floats hold IEEE 754 values ([spec_float], binary32 for the
    PCM path and binary64 for the decoded uploads).  The libraries the
    service drives (soundfile, librosa, transformers, torch) are an interface
    ([Runtime]); the parts of the standard library and of numpy whose
    behaviour the endpoints depend on ([base64.b64decode], [np.frombuffer],
    [astype(np.float32) / 32768.0], [mean(axis=1)], [str.strip]) are written
    out.

    Exceptions are the instances of Python's [Exception], the class the
    handlers name in their [except] clauses; interpreter signals that derive
    from [BaseException] only (KeyboardInterrupt, SystemExit, task
    cancellation) are not part of the model. *)

From Stdlib Require Import ZArith NArith List String Ascii Bool Lia.
From Stdlib.Strings Require Import Byte.
From Stdlib Require Import DecimalString SpecFloat.
Import ListNotations.

Set Implicit Arguments.
Local Open Scope Z_scope.

(** ** Python values *)

Module Py.

(** A Python [str]: its code points. *)
Definition str := list N.

(** A Python [bytes] object. *)
Definition bytes := list byte.

(** A [str] literal of the source (ASCII). *)
Definition lit (s : string) : str :=
  map N_of_ascii (list_ascii_of_string s).

(** [str(n)] for an [int]. *)
Definition str_of_int (n : Z) : str :=
  lit (NilZero.string_of_int (Z.to_int n)).

(** [str.isspace] on one code point: the characters [str.strip()]
    removes. *)
Definition isspace (c : N) : bool :=
  (((9 <=? c) && (c <=? 13)) || ((28 <=? c) && (c <=? 32))
   || (c =? 133) || (c =? 160) || (c =? 5760)
   || ((8192 <=? c) && (c <=? 8202))
   || (c =? 8232) || (c =? 8233) || (c =? 8239) || (c =? 8287)
   || (c =? 12288))%N.

Fixpoint lstrip (s : str) : str :=
  match s with
  | c :: s' => if isspace c then lstrip s' else s
  | [] => []
  end.

(** [s.strip()] *)
Definition strip (s : str) : str := rev (lstrip (rev (lstrip s))).

(** Instances of [Exception].  [HTTPException] is FastAPI's; every other
    exception is given by its class name and its [str(e)]. *)
Inductive exn : Type :=
| HTTPException (status_code : Z) (detail : str)
| Exception (cls : string) (msg : str).

(** [str(e)] *)
Definition str_of_exn (e : exn) : str :=
  match e with
  | HTTPException status_code detail =>
      str_of_int status_code ++ lit ": " ++ detail
  | Exception _ msg => msg
  end.

(** The outcome of evaluating an expression: a value, or a raised
    exception. *)
Inductive result (A : Type) : Type :=
| Ok (a : A)
| Raise (e : exn).
Arguments Ok {A} a.
Arguments Raise {A} e.

End Py.
Import Py.

(** ** IEEE 754 arithmetic of the numpy arrays *)

Module F32.
Definition prec : Z := 24.
Definition emax : Z := 128.
(** conversion of an integer, round to nearest even *)
Definition of_int (n : Z) : spec_float := binary_normalize prec emax n 0 false.
Definition div : spec_float -> spec_float -> spec_float := SFdiv prec emax.
End F32.

Module F64.
Definition prec : Z := 53.
Definition emax : Z := 1024.
Definition of_int (n : Z) : spec_float := binary_normalize prec emax n 0 false.
Definition add : spec_float -> spec_float -> spec_float := SFadd prec emax.
Definition div : spec_float -> spec_float -> spec_float := SFdiv prec emax.
Definition zero : spec_float := S754_zero false.
End F64.

(** A numpy array of floats, of one or of two dimensions (frames by
    channels). *)
Inductive ndarray : Type :=
| Array1 (data : list spec_float)
| Array2 (frames : list (list spec_float)).

(** [len(a.shape)] *)
Definition ndim (a : ndarray) : Z :=
  match a with
  | Array1 _ => 1
  | Array2 _ => 2
  end.

(** The mean of one frame: the sum of its channels, accumulated from the
    first channel to the last, divided by their number.  (numpy adds a row
    of eight or more items in an unrolled pairwise order, which is the same
    sum up to rounding.) *)
Definition mean_frame (frame : list spec_float) : spec_float :=
  F64.div (fold_left F64.add frame F64.zero) (F64.of_int (Z.of_nat (List.length frame))).

(** [a.mean(axis=1)] *)
Definition mean_axis1 (a : ndarray) : result ndarray :=
  match a with
  | Array2 frames => Ok (Array1 (map mean_frame frames))
  | Array1 _ =>
      Raise (Exception "numpy.exceptions.AxisError"
               (lit "axis 1 is out of bounds for array of dimension 1"))
  end.

(** ** [base64.b64decode] *)

Module Base64.

Definition byte_of_N (n : N) : byte :=
  match Byte.of_N (n mod 256) with
  | Some b => b
  | None => x00
  end.

(** [_bytes_from_decode_data]: a [str] argument is encoded as ASCII. *)
Fixpoint encode_ascii (s : str) : option (list N) :=
  match s with
  | [] => Some []
  | c :: s' =>
      if (c <? 128)%N then option_map (cons c) (encode_ascii s') else None
  end.

(** The value of a character of the base64 alphabet. *)
Definition table_a2b_base64 (c : N) : option N :=
  (if (65 <=? c) && (c <=? 90) then Some (c - 65)
   else if (97 <=? c) && (c <=? 122) then Some (c - 71)
   else if (48 <=? c) && (c <=? 57) then Some (c + 4)
   else if c =? 43 then Some 62
   else if c =? 47 then Some 63
   else None)%N.

Definition BASE64_PAD : N := 61.

Definition Error (msg : str) : exn := Exception "binascii.Error" msg.

(** [binascii.a2b_base64] with [strict_mode=False], the decoder behind
    [b64decode(s)] when [validate] is left at its default: a character
    outside the alphabet is skipped, a pad sequence that completes a quad
    ends the input, and only an incomplete last quad is an error.
    [out] is the output so far, last byte first. *)
Fixpoint a2b_base64_loop (ascii_data : list N) (quad_pos leftchar pads : N)
    (out : list byte) : result bytes :=
  match ascii_data with
  | [] =>
      if (quad_pos =? 0)%N then Ok (rev out)
      else if (quad_pos =? 1)%N then
        Raise (Error
          (lit "Invalid base64-encoded string: number of data characters ("
           ++ str_of_int (Z.of_nat (List.length out) / 3 * 4 + 1)
           ++ lit ") cannot be 1 more than a multiple of 4"))
      else Raise (Error (lit "Incorrect padding"))
  | this_ch :: rest =>
      if (this_ch =? BASE64_PAD)%N then
        if (2 <=? quad_pos)%N then
          if (4 <=? quad_pos + (pads + 1))%N then Ok (rev out)
          else a2b_base64_loop rest quad_pos leftchar (pads + 1)%N out
        else a2b_base64_loop rest quad_pos leftchar pads out
      else
        match table_a2b_base64 this_ch with
        | None => a2b_base64_loop rest quad_pos leftchar pads out
        | Some v =>
            (if quad_pos =? 0 then a2b_base64_loop rest 1 v 0 out
             else if quad_pos =? 1 then
               a2b_base64_loop rest 2 (N.land v 15) 0
                 (byte_of_N (N.lor (N.shiftl leftchar 2) (N.shiftr v 4)) :: out)
             else if quad_pos =? 2 then
               a2b_base64_loop rest 3 (N.land v 3) 0
                 (byte_of_N (N.lor (N.shiftl leftchar 4) (N.shiftr v 2)) :: out)
             else
               a2b_base64_loop rest 0 0 0
                 (byte_of_N (N.lor (N.shiftl leftchar 6) v) :: out))%N
        end
  end.

Definition a2b_base64 (ascii_data : list N) : result bytes :=
  a2b_base64_loop ascii_data 0 0 0 [].

(** [base64.b64decode(s)] for a [str] [s]. *)
Definition b64decode (s : str) : result bytes :=
  match encode_ascii s with
  | None =>
      Raise (Exception "ValueError"
               (lit "string argument should contain only ASCII characters"))
  | Some data => a2b_base64 data
  end.

(** Well-formed base64 in the sense of RFC 4648, section 4: quads of
    alphabet characters, the last one possibly ending in one or two pad
    characters, and nothing else. *)
Definition is_alphabet (c : N) : bool :=
  match table_a2b_base64 c with Some _ => true | None => false end.

Definition is_pad (c : N) : bool := (c =? BASE64_PAD)%N.

Fixpoint well_formed (s : str) : bool :=
  match s with
  | [] => true
  | [a; b; c; d] =>
      is_alphabet a && is_alphabet b
      && ((is_alphabet c && (is_alphabet d || is_pad d))
          || (is_pad c && is_pad d))
  | a :: b :: c :: d :: s' =>
      is_alphabet a && is_alphabet b && is_alphabet c && is_alphabet d
      && well_formed s'
  | _ => false
  end.

End Base64.

(** ** 16-bit PCM buffers *)

Inductive ByteOrder : Type := little | big.

Module Numpy.

(** One item of dtype [int16] from two bytes of the buffer, in the byte
    order of the machine. *)
Definition int16_of_bytes (order : ByteOrder) (b0 b1 : byte) : Z :=
  let u := match order with
           | little => Z.of_N (Byte.to_N b0) + 256 * Z.of_N (Byte.to_N b1)
           | big => Z.of_N (Byte.to_N b1) + 256 * Z.of_N (Byte.to_N b0)
           end in
  if u <? 32768 then u else u - 65536.

Fixpoint items_int16 (order : ByteOrder) (buffer : bytes) : option (list Z) :=
  match buffer with
  | [] => Some []
  | b0 :: b1 :: rest =>
      option_map (cons (int16_of_bytes order b0 b1)) (items_int16 order rest)
  | [_] => None
  end.

(** [np.frombuffer(buffer, dtype=np.int16)] *)
Definition frombuffer_int16 (order : ByteOrder) (buffer : bytes) : result (list Z) :=
  match items_int16 order buffer with
  | Some items => Ok items
  | None =>
      Raise (Exception "ValueError"
               (lit "buffer size must be a multiple of element size"))
  end.

(** One item of [a.astype(np.float32) / 32768.0]: the division is done in
    single precision, the scalar [32768.0] being a float32 too. *)
Definition pcm_item_to_float (s : Z) : spec_float :=
  F32.div (F32.of_int s) (F32.of_int 32768).

Definition pcm_to_float (audio_int16 : list Z) : ndarray :=
  Array1 (map pcm_item_to_float audio_int16).

End Numpy.

(** ** The libraries behind the service *)

Inductive dtype : Type := float16 | float32.

(** soundfile, librosa, transformers and torch, as far as the service calls
    them.  Every call either returns or raises. *)
Record Runtime : Type := {
  WhisperProcessor : Type;
  WhisperForConditionalGeneration : Type;
  Tensor : Type;
  (** [sys.byteorder], the layout of [np.int16] *)
  byteorder : ByteOrder;
  (** [torch.cuda.is_available()] when the module was imported *)
  cuda_is_available_at_import : bool;
  (** [WhisperProcessor.from_pretrained(name)] *)
  WhisperProcessor_from_pretrained : str -> result WhisperProcessor;
  (** [WhisperForConditionalGeneration.from_pretrained(name,
      torch_dtype=dtype, low_cpu_mem_usage=True)] *)
  WhisperForConditionalGeneration_from_pretrained :
    str -> dtype -> result WhisperForConditionalGeneration;
  (** [m.to(device)] *)
  module_to :
    WhisperForConditionalGeneration -> str -> result WhisperForConditionalGeneration;
  (** [m.config.forced_decoder_ids = None] *)
  clear_forced_decoder_ids :
    WhisperForConditionalGeneration -> WhisperForConditionalGeneration;
  (** [sf.read(io.BytesIO(audio_bytes))]: the samples and the sample rate *)
  sf_read : bytes -> result (ndarray * Z);
  (** [import librosa] *)
  import_librosa : result unit;
  (** [librosa.resample(y, orig_sr=orig_sr, target_sr=target_sr)] *)
  librosa_resample : ndarray -> Z -> Z -> result ndarray;
  (** [p(audio, sampling_rate=sampling_rate, return_tensors="pt").input_features] *)
  processor_call : WhisperProcessor -> ndarray -> Z -> result Tensor;
  (** [t.to(device, dtype=dtype)] *)
  tensor_to : Tensor -> str -> dtype -> result Tensor;
  (** [m.generate(input_features)], under [torch.no_grad()] *)
  generate : WhisperForConditionalGeneration -> Tensor -> result Tensor;
  (** [p.batch_decode(predicted_ids, skip_special_tokens=True)] *)
  batch_decode : WhisperProcessor -> Tensor -> result (list str)
}.

(** A library call that works on a request's payload or loads the model; the
    service's state keeps the sequence of the calls made. *)
Inductive Call : Type :=
| Call_from_pretrained
| Call_to
| Call_file_read
| Call_sf_read (audio_bytes : bytes)
| Call_b64decode (s : str)
| Call_frombuffer (buffer : bytes)
| Call_resample (y : ndarray) (orig_sr target_sr : Z)
| Call_processor (audio : ndarray) (sampling_rate : Z)
| Call_generate
| Call_batch_decode.

(** An uploaded file: what [await file.read()] gives. *)
Record UploadFile : Type := { read : result bytes }.

(** ** Request and response models *)

(** [class TranscribeBase64Request(BaseModel)] *)
Record TranscribeBase64Request : Type := {
  audio_data : str;
  sample_rate : Z
}.

(** The model's constructor: [sample_rate: int = 16000]. *)
Definition TranscribeBase64Request_init (audio_data : str) (sample_rate : option Z)
  : TranscribeBase64Request :=
  {| audio_data := audio_data;
     sample_rate := match sample_rate with Some r => r | None => 16000 end |}.

(** [class TranscriptionResponse(BaseModel)] *)
Record TranscriptionResponse : Type := {
  text : str;
  language : str
}.

(** The model's constructor: [language: str = "is"]. *)
Definition TranscriptionResponse_init (text : str) (language : option str)
  : TranscriptionResponse :=
  {| text := text;
     language := match language with Some l => l | None => lit "is" end |}.

(** JSON objects of the responses: the fields in order, with string or
    boolean values. *)
Inductive json_value : Type :=
| JString (s : str)
| JBool (b : bool).

Definition json_object : Type := list (str * json_value).

Definition keys (o : json_object) : list str := map fst o.

Definition json_of_TranscriptionResponse (r : TranscriptionResponse) : json_object :=
  [(lit "text", JString (text r)); (lit "language", JString (language r))].

(** An HTTP response: the status code and the body. *)
Inductive Content : Type :=
| JSON (o : json_object)
| PlainText (s : str).

Record Response : Type := {
  status_code : Z;
  content : Content
}.

(** What FastAPI sends for a handler's outcome: the returned value as JSON
    with status 200, an [HTTPException] as its own status with its detail,
    any other exception as the server's plain 500. *)
Definition respond {A : Type} (to_json : A -> json_object) (r : result A) : Response :=
  match r with
  | Ok a => {| status_code := 200; content := JSON (to_json a) |}
  | Raise (HTTPException sc detail) =>
      {| status_code := sc; content := JSON [(lit "detail", JString detail)] |}
  | Raise (Exception _ _) =>
      {| status_code := 500; content := PlainText (lit "Internal Server Error") |}
  end.

(** ** The service *)

Section Service.

Variable rt : Runtime.

(** *** Module-level configuration *)

Definition MODEL_NAME : str :=
  lit "language-and-voice-lab/whisper-large-icelandic-62640-steps-967h".

Definition DEVICE : str :=
  if cuda_is_available_at_import rt then lit "cuda" else lit "cpu".

Definition TORCH_DTYPE : dtype :=
  if cuda_is_available_at_import rt then float16 else float32.

(** *** State

    The two module globals, [None] until the model is loaded; what
    [torch.cuda.is_available()] answers; the library calls made so far. *)
Record State : Type := {
  processor : option (WhisperProcessor rt);
  model : option (WhisperForConditionalGeneration rt);
  cuda_is_available : bool;
  calls : list Call
}.

(** The state when the module has been imported. *)
Definition initial (cuda : bool) : State :=
  {| processor := None; model := None; cuda_is_available := cuda; calls := [] |}.

(** *** Statements: state and exceptions *)

Definition M (A : Type) : Type := State -> State * result A.

Definition ret {A : Type} (a : A) : M A := fun s => (s, Ok a).

Definition bind {A B : Type} (m : M A) (k : A -> M B) : M B :=
  fun s =>
    match m s with
    | (s', Ok a) => k a s'
    | (s', Raise e) => (s', Raise e)
    end.

Definition raise {A : Type} (e : exn) : M A := fun s => (s, Raise e).

(** [try: body / except Exception as e: handler e] *)
Definition try_except {A : Type} (body : M A) (handler : exn -> M A) : M A :=
  fun s =>
    match body s with
    | (s', Ok a) => (s', Ok a)
    | (s', Raise e) => handler e s'
    end.

(** Reading a global. *)
Definition get {A : Type} (global : State -> A) : M A := fun s => (s, Ok (global s)).

(** [global processor; processor = v] *)
Definition set_processor (v : option (WhisperProcessor rt)) : M unit :=
  fun s =>
    ({| processor := v; model := model s;
        cuda_is_available := cuda_is_available s; calls := calls s |}, Ok tt).

(** [global model; model = v] *)
Definition set_model (v : option (WhisperForConditionalGeneration rt)) : M unit :=
  fun s =>
    ({| processor := processor s; model := v;
        cuda_is_available := cuda_is_available s; calls := calls s |}, Ok tt).

(** A pure expression that may raise. *)
Definition lift {A : Type} (r : result A) : M A := fun s => (s, r).

(** A library call: it is recorded, then returns or raises. *)
Definition call {A : Type} (c : Call) (r : result A) : M A :=
  fun s =>
    ({| processor := processor s; model := model s;
        cuda_is_available := cuda_is_available s; calls := calls s ++ [c] |}, r).

Notation "x <- m ;; k" := (bind m (fun x => k))
  (at level 61, m at next level, right associativity).
Notation "' p <- m ;; k" := (bind m (fun x => let p := x in k))
  (at level 61, p pattern, m at next level, right associativity).

(** *** Startup: [load_model]  (the logging calls are left out) *)

Definition load_model : M unit :=
  p <- call Call_from_pretrained (WhisperProcessor_from_pretrained rt MODEL_NAME) ;;
  _ <- set_processor (Some p) ;;
  m <- call Call_from_pretrained
         (WhisperForConditionalGeneration_from_pretrained rt MODEL_NAME TORCH_DTYPE) ;;
  m <- call Call_to (module_to rt m DEVICE) ;;
  _ <- set_model (Some m) ;;
  set_model (Some (clear_forced_decoder_ids rt m)).

(** *** [GET /health] *)

Definition health_check : M json_object :=
  cuda <- get cuda_is_available ;;
  ret [(lit "status", JString (lit "healthy"));
       (lit "model", JString MODEL_NAME);
       (lit "device", JString DEVICE);
       (lit "cuda_available", JBool cuda)].

(** *** The part both transcription handlers share, written out in each of
    them in the source: features, generation, decoding. *)

Definition infer (p : WhisperProcessor rt) (m : WhisperForConditionalGeneration rt)
    (audio : ndarray) : M TranscriptionResponse :=
  input_features <- call (Call_processor audio 16000) (processor_call rt p audio 16000) ;;
  input_features <- call Call_to (tensor_to rt input_features DEVICE TORCH_DTYPE) ;;
  predicted_ids <- call Call_generate (generate rt m input_features) ;;
  decoded <- call Call_batch_decode (batch_decode rt p predicted_ids) ;;
  match decoded with
  | transcription :: _ => ret (TranscriptionResponse_init (strip transcription) None)
  | [] => raise (Exception "IndexError" (lit "list index out of range"))
  end.

(** The handler of the [except Exception as e] clauses. *)
Definition internal_error {A : Type} (e : exn) : M A :=
  raise (HTTPException 500 (str_of_exn e)).

Definition model_not_loaded {A : Type} : M A :=
  raise (HTTPException 503 (lit "Model not loaded yet")).

(** *** [POST /transcribe] *)

Definition transcribe_audio_body (p : WhisperProcessor rt)
    (m : WhisperForConditionalGeneration rt) (file : UploadFile)
  : M TranscriptionResponse :=
  audio_bytes <- call Call_file_read (read file) ;;
  ' (audio_data, sample_rate) <- call (Call_sf_read audio_bytes) (sf_read rt audio_bytes) ;;
  audio_data <- (if 1 <? ndim audio_data
                 then lift (mean_axis1 audio_data)
                 else ret audio_data) ;;
  audio_data <- (if negb (sample_rate =? 16000)
                 then _ <- lift (import_librosa rt) ;;
                      call (Call_resample audio_data sample_rate 16000)
                        (librosa_resample rt audio_data sample_rate 16000)
                 else ret audio_data) ;;
  infer p m audio_data.

Definition transcribe_audio (file : UploadFile) : M TranscriptionResponse :=
  m <- get model ;;
  p <- get processor ;;
  match m, p with
  | Some m, Some p => try_except (transcribe_audio_body p m file) internal_error
  | _, _ => model_not_loaded
  end.

(** *** [POST /transcribe/pcm] *)

Definition transcribe_pcm_body (p : WhisperProcessor rt)
    (m : WhisperForConditionalGeneration rt) (request : TranscribeBase64Request)
  : M TranscriptionResponse :=
  audio_bytes <- call (Call_b64decode (audio_data request))
                   (Base64.b64decode (audio_data request)) ;;
  audio_int16 <- call (Call_frombuffer audio_bytes)
                   (Numpy.frombuffer_int16 (byteorder rt) audio_bytes) ;;
  audio_float <- ret (Numpy.pcm_to_float audio_int16) ;;
  audio_float <- (if negb (sample_rate request =? 16000)
                  then _ <- lift (import_librosa rt) ;;
                       call (Call_resample audio_float (sample_rate request) 16000)
                         (librosa_resample rt audio_float (sample_rate request) 16000)
                  else ret audio_float) ;;
  infer p m audio_float.

Definition transcribe_pcm (request : TranscribeBase64Request) : M TranscriptionResponse :=
  m <- get model ;;
  p <- get processor ;;
  match m, p with
  | Some m, Some p => try_except (transcribe_pcm_body p m request) internal_error
  | _, _ => model_not_loaded
  end.

(** *** The application: routing and responses *)

Inductive Request : Type :=
| GET_health
| POST_transcribe (file : UploadFile)
| POST_transcribe_pcm (audio_data : str) (sample_rate : option Z).

(** One request: the handler's outcome, as the response FastAPI sends. *)
Definition serve (req : Request) (s : State) : State * Response :=
  match req with
  | GET_health =>
      let (s', r) := health_check s in (s', respond (fun o => o) r)
  | POST_transcribe file =>
      let (s', r) := transcribe_audio file s in
      (s', respond json_of_TranscriptionResponse r)
  | POST_transcribe_pcm audio_data sample_rate =>
      let (s', r) :=
        transcribe_pcm (TranscribeBase64Request_init audio_data sample_rate) s in
      (s', respond json_of_TranscriptionResponse r)
  end.

(** A sequence of requests, in order: the final state and the responses. *)
Fixpoint serve_all (reqs : list Request) (s : State) : State * list Response :=
  match reqs with
  | [] => (s, [])
  | req :: reqs' =>
      let (s1, r) := serve req s in
      let (s2, rs) := serve_all reqs' s1 in
      (s2, r :: rs)
  end.

(** *** Observations *)

(** The library calls a statement makes from a state, and its outcome. *)
Definition calls_of {A : Type} (m : M A) (s : State) : list Call :=
  skipn (List.length (calls s)) (calls (fst (m s))).

Definition outcome {A : Type} (m : M A) (s : State) : result A := snd (m s).

(** The state after some more library calls, the globals as they were. *)
Definition add_calls (s : State) (l : list Call) : State :=
  {| processor := processor s; model := model s;
     cuda_is_available := cuda_is_available s; calls := calls s ++ l |}.

(** [steps m s l r]: from [s], [m] makes the calls [l], ends with [r] and
    leaves the globals alone. *)
Definition steps {A : Type} (m : M A) (s : State) (l : list Call) (r : result A) : Prop :=
  m s = (add_calls s l, r).

(** [framed m]: whatever the state, [m] only adds calls to it. *)
Definition framed {A : Type} (m : M A) : Prop :=
  forall s, exists l r, steps m s l r.

(** [ensures m P]: whenever [m] returns, its value satisfies [P]. *)
Definition ensures {A : Type} (m : M A) (P : A -> Prop) : Prop :=
  forall s, match outcome m s with Ok a => P a | Raise _ => True end.

(** The resampling step of both handlers, as the calls it makes and its
    outcome: nothing at 16000 Hz, one call of the resampler otherwise. *)
Definition resample_stage (audio : ndarray) (sample_rate : Z)
  : list Call * result ndarray :=
  if sample_rate =? 16000 then ([], Ok audio)
  else
    match import_librosa rt with
    | Ok _ =>
        ([Call_resample audio sample_rate 16000],
         librosa_resample rt audio sample_rate 16000)
    | Raise e => ([], Raise e)
    end.

End Service.

(** What the mono step of [/transcribe] leaves of a decoded buffer. *)
Definition to_mono (audio_data : ndarray) : ndarray :=
  match audio_data with
  | Array2 frames => Array1 (map mean_frame frames)
  | Array1 _ => audio_data
  end.

Arguments model_not_loaded {rt A}.
Arguments internal_error {rt A} e.
Arguments load_model rt s : clear implicits.
Arguments health_check rt s : clear implicits.
Arguments transcribe_audio rt file s : clear implicits.
Arguments transcribe_pcm rt request s : clear implicits.
Arguments serve rt req s : clear implicits.
Arguments serve_all rt reqs s : clear implicits.
Arguments resample_stage rt audio sample_rate : clear implicits.

(** The steps that carry audio towards the model: resampling and feature
    extraction. *)
Definition is_audio_step (c : Call) : bool :=
  match c with
  | Call_resample _ _ _ | Call_processor _ _ => true
  | _ => false
  end.

Definition audio_path (l : list Call) : list Call := filter is_audio_step l.

(** The array a step receives. *)
Definition audio_of (c : Call) : option ndarray :=
  match c with
  | Call_resample y _ _ => Some y
  | Call_processor audio _ => Some audio
  | _ => None
  end.

Definition is_resample (c : Call) : bool :=
  match c with
  | Call_resample _ _ _ => true
  | _ => false
  end.

(** The first array on the audio path. *)
Definition first_audio (l : list Call) : option ndarray :=
  match audio_path l with
  | c :: _ => audio_of c
  | [] => None
  end.

Section Observations.

Variable rt : Runtime.

(** [quiet m]: [m] only adds calls, none of them a step of the audio
    path. *)
Definition quiet {A : Type} (m : M rt A) : Prop :=
  forall s, exists l r, steps m s l r /\ audio_path l = [].

(** What the audio path of a handler is, from the array that reaches the
    resampling step and its sample rate. *)
Definition expected_path (audio : ndarray) (rate : Z) : list Call :=
  audio_path (fst (resample_stage rt audio rate))
  ++ match snd (resample_stage rt audio rate) with
     | Ok audio' => [Call_processor audio' 16000]
     | Raise _ => []
     end.

(** The array [/transcribe/pcm] decodes from a request, if it does. *)
Definition pcm_audio (request : TranscribeBase64Request) : option ndarray :=
  match Base64.b64decode (audio_data request) with
  | Ok audio_bytes =>
      match Numpy.frombuffer_int16 (byteorder rt) audio_bytes with
      | Ok audio_int16 => Some (Numpy.pcm_to_float audio_int16)
      | Raise _ => None
      end
  | Raise _ => None
  end.

End Observations.

Arguments quiet rt {A} m.

(** A handler returns a response in Icelandic, or raises one of its two
    [HTTPException]s. *)
Definition handled (r : result TranscriptionResponse) : Prop :=
  match r with
  | Ok resp => language resp = lit "is"
  | Raise e =>
      e = HTTPException 503 (lit "Model not loaded yet")
      \/ exists e', e = HTTPException 500 (str_of_exn e')
  end.

(** The response while the model is not loaded. *)
Definition not_loaded_response : Response :=
  {| status_code := 503;
     content := JSON [(lit "detail", JString (lit "Model not loaded yet"))] |}.

(** [value f = num / 2 ^ k], exactly. *)
Definition is_ratio_pow2 (f : spec_float) (num k : Z) : Prop :=
  match f with
  | S754_zero _ => num = 0
  | S754_finite sg m e => e <= - k /\ cond_Zopp sg (Zpos m) = num * 2 ^ (- e - k)
  | _ => False
  end.

(** [-1.0] and [32767 / 32768] in single precision. *)
Definition f32_minus_one : spec_float := S754_finite true 8388608 (-23).
Definition f32_pcm_max : spec_float := S754_finite false 16776704 (-24).

(** The decidable form of what is claimed of one converted sample: it is
    [i / 32768] exactly and lies between [-1.0] and [32767 / 32768]. *)
Definition pcm_item_ok (i : Z) : bool :=
  let f := Numpy.pcm_item_to_float i in
  match f with
  | S754_zero _ => i =? 0
  | S754_finite sg m e => (e <=? -15) && (cond_Zopp sg (Zpos m) =? i * 2 ^ (- e - 15))
  | _ => false
  end
  && SFleb f32_minus_one f && SFleb f f32_pcm_max.

(** [test] on the [n] integers from [lo] on. *)
Fixpoint all_from (n : nat) (lo : Z) (test : Z -> bool) : bool :=
  match n with
  | O => true
  | S n' => test lo && all_from n' (lo + 1) test
  end.

(** ** A small runtime to run the service on

    Uploads are in a raw format: one byte for the number of channels (1 or
    2), two for the sample rate (little-endian), then 16-bit little-endian
    samples, interleaved.  The resampler keeps every other sample, the
    features are the audio itself and every transcription is the same word,
    with blanks around it. *)

Module Fake.

Definition sample (i : Z) : spec_float :=
  F64.div (F64.of_int i) (F64.of_int 32768).

Fixpoint stereo_frames (items : list Z) : list (list spec_float) :=
  match items with
  | l :: r :: rest => [sample l; sample r] :: stereo_frames rest
  | _ => []
  end.

Definition not_recognised : exn :=
  Exception "soundfile.LibsndfileError" (lit "Format not recognised.").

Definition read_raw (audio_bytes : bytes) : result (ndarray * Z) :=
  match audio_bytes with
  | channels :: r0 :: r1 :: data =>
      let rate := Z.of_N (Byte.to_N r0) + 256 * Z.of_N (Byte.to_N r1) in
      match Numpy.items_int16 little data with
      | Some items =>
          if (Byte.to_N channels =? 1)%N then Ok (Array1 (map sample items), rate)
          else if (Byte.to_N channels =? 2)%N then Ok (Array2 (stereo_frames items), rate)
          else Raise not_recognised
      | None => Raise not_recognised
      end
  | _ => Raise not_recognised
  end.

Fixpoint every_other (xs : list spec_float) : list spec_float :=
  match xs with
  | x :: _ :: rest => x :: every_other rest
  | _ => xs
  end.

Definition resample (y : ndarray) (orig_sr target_sr : Z) : result ndarray :=
  match y with
  | Array1 xs => Ok (Array1 (every_other xs))
  | Array2 _ => Raise (Exception "ValueError" (lit "expected one channel"))
  end.

(** " halló " *)
Definition transcription : str := [32; 104; 97; 108; 108; 243; 32]%N.

Definition runtime (cuda : bool) : Runtime :=
  {| WhisperProcessor := unit;
     WhisperForConditionalGeneration := unit;
     Tensor := ndarray;
     byteorder := little;
     cuda_is_available_at_import := cuda;
     WhisperProcessor_from_pretrained := fun _ => Ok tt;
     WhisperForConditionalGeneration_from_pretrained := fun _ _ => Ok tt;
     module_to := fun m _ => Ok m;
     clear_forced_decoder_ids := fun m => m;
     sf_read := read_raw;
     import_librosa := Ok tt;
     librosa_resample := resample;
     processor_call := fun _ audio _ => Ok audio;
     tensor_to := fun t _ _ => Ok t;
     generate := fun _ t => Ok t;
     batch_decode := fun _ _ => Ok [transcription] |}.

(** The state once [load_model] has run. *)
Definition ready (cuda : bool) : State (runtime cuda) :=
  @Build_State (runtime cuda) (Some tt) (Some tt) cuda [].

(** Uploads: two stereo frames at 44100 Hz, two mono samples at 16000 Hz,
    and a file that is no audio. *)
Definition stereo_44100 : UploadFile :=
  {| read := Ok [x02; x44; xac; x00; x40; x00; x20; x00; x80; xff; x7f] |}.
Definition mono_16000 : UploadFile :=
  {| read := Ok [x01; x80; x3e; x00; x40; x00; x20] |}.
Definition no_audio : UploadFile := {| read := Ok [x07] |}.

(** The base64 of the four samples 1, 32767, -32768, -1. *)
Definition four_samples : str := lit "AQD/fwCA//8=".
Definition four_samples_bytes : bytes := [x01; x00; xff; x7f; x00; x80; xff; xff].

End Fake.

(** ** Further observations *)

Unset Implicit Arguments.

(** Two states with the same globals and the same CUDA answer: they differ
    in the record of calls only. *)
Definition agree {rt : Runtime} (s s' : State rt) : Prop :=
  processor s = processor s'
  /\ model s = model s'
  /\ cuda_is_available s = cuda_is_available s'.

(** [uniform m]: [m] only adds calls, and the calls it adds and its outcome
    are the same from states that agree. *)
Definition uniform {rt : Runtime} {A : Type} (m : M rt A) : Prop :=
  forall s s', agree s s' -> exists l r, steps m s l r /\ steps m s' l r.

(** The transcription requests. *)
Definition is_transcription (req : Request) : bool :=
  match req with
  | GET_health => false
  | _ => true
  end.

(** A runtime in which the model cannot be loaded (the processor can), and
    one whose decoder returns no transcription. *)
Definition out_of_memory : exn :=
  Exception "torch.cuda.OutOfMemoryError" (lit "CUDA out of memory.").

Definition runtime_without_model : Runtime :=
  {| WhisperProcessor := unit;
     WhisperForConditionalGeneration := unit;
     Tensor := ndarray;
     byteorder := little;
     cuda_is_available_at_import := true;
     WhisperProcessor_from_pretrained := fun _ => Ok tt;
     WhisperForConditionalGeneration_from_pretrained := fun _ _ => Raise out_of_memory;
     module_to := fun m _ => Ok m;
     clear_forced_decoder_ids := fun m => m;
     sf_read := Fake.read_raw;
     import_librosa := Ok tt;
     librosa_resample := Fake.resample;
     processor_call := fun _ audio _ => Ok audio;
     tensor_to := fun t _ _ => Ok t;
     generate := fun _ t => Ok t;
     batch_decode := fun _ _ => Ok [Fake.transcription] |}.

Definition runtime_without_text : Runtime :=
  {| WhisperProcessor := unit;
     WhisperForConditionalGeneration := unit;
     Tensor := ndarray;
     byteorder := little;
     cuda_is_available_at_import := true;
     WhisperProcessor_from_pretrained := fun _ => Ok tt;
     WhisperForConditionalGeneration_from_pretrained := fun _ _ => Ok tt;
     module_to := fun m _ => Ok m;
     clear_forced_decoder_ids := fun m => m;
     sf_read := Fake.read_raw;
     import_librosa := Ok tt;
     librosa_resample := Fake.resample;
     processor_call := fun _ audio _ => Ok audio;
     tensor_to := fun t _ _ => Ok t;
     generate := fun _ t => Ok t;
     batch_decode := fun _ _ => Ok [] |}.

(** A string with no whitespace at either end. *)
Definition trimmed (t : str) : Prop :=
  match t with
  | c :: _ => isspace c = false
  | [] => True
  end
  /\ match rev t with
     | c :: _ => isspace c = false
     | [] => True
     end.

(** A response made from what the decoder returned: the first string of the
    batch, stripped, with the default language. *)
Definition decoded_response (rt : Runtime) (p : WhisperProcessor rt)
    (r : TranscriptionResponse) : Prop :=
  exists predicted_ids transcription others,
    batch_decode rt p predicted_ids = Ok (transcription :: others)
    /\ r = TranscriptionResponse_init (strip transcription) None.

(** The calls that read and decode a request's audio, and the calls of the
    inference in their order. *)
Definition is_decoding_call (c : Call) : bool :=
  match c with
  | Call_file_read | Call_sf_read _ | Call_b64decode _ | Call_frombuffer _
  | Call_resample _ _ _ => true
  | _ => false
  end.

Definition inference_calls (audio : ndarray) : list Call :=
  [Call_processor audio 16000; Call_to; Call_generate; Call_batch_decode].

(** The calls of one request: decoding calls, then a prefix of the
    inference calls. *)
Definition request_calls (l : list Call) : Prop :=
  exists l1 l2 audio rest,
    l = l1 ++ l2
    /\ forallb is_decoding_call l1 = true
    /\ l2 ++ rest = inference_calls audio.

(** [decoding m]: [m] only adds decoding calls; [shaped m]: the calls [m]
    adds are those of one request. *)
Definition decoding {rt : Runtime} {A : Type} (m : M rt A) : Prop :=
  forall s, exists l r, steps m s l r /\ forallb is_decoding_call l = true.

Definition shaped {rt : Runtime} {A : Type} (m : M rt A) : Prop :=
  forall s, exists l r, steps m s l r /\ request_calls l.

(** [prefixed full m]: the calls [m] adds are a prefix of [full]. *)
Definition prefixed {rt : Runtime} {A : Type} (full : list Call) (m : M rt A) : Prop :=
  forall s, exists l r rest, steps m s l r /\ l ++ rest = full.

(** ** What a client sends to [/transcribe/pcm]

    The handler's docstring names the format: base64 of 16-bit mono PCM.
    The encoder is the standard one (RFC 4648, section 4), the samples are
    packed in the byte order of the server. *)

(** The character of a 6-bit value. *)
Definition b64char (v : N) : N :=
  (if v <? 26 then 65 + v
   else if v <? 52 then 71 + v
   else if v <? 62 then v - 4
   else if v =? 62 then 43
   else 47)%N.

Fixpoint b64encode (data : bytes) : str :=
  match data with
  | [] => []
  | [b0] =>
      let n0 := Byte.to_N b0 in
      [b64char (N.shiftr n0 2); b64char (N.shiftl (N.land n0 3) 4);
       Base64.BASE64_PAD; Base64.BASE64_PAD]
  | [b0; b1] =>
      let n0 := Byte.to_N b0 in
      let n1 := Byte.to_N b1 in
      [b64char (N.shiftr n0 2);
       b64char (N.lor (N.shiftl (N.land n0 3) 4) (N.shiftr n1 4));
       b64char (N.shiftl (N.land n1 15) 2);
       Base64.BASE64_PAD]
  | b0 :: b1 :: b2 :: rest =>
      let n0 := Byte.to_N b0 in
      let n1 := Byte.to_N b1 in
      let n2 := Byte.to_N b2 in
      b64char (N.shiftr n0 2)
      :: b64char (N.lor (N.shiftl (N.land n0 3) 4) (N.shiftr n1 4))
      :: b64char (N.lor (N.shiftl (N.land n1 15) 2) (N.shiftr n2 6))
      :: b64char (N.land n2 63)
      :: b64encode rest
  end.

(** The two bytes of a 16-bit sample, two's complement. *)
Definition int16_to_bytes (order : ByteOrder) (i : Z) : bytes :=
  let u := i mod 65536 in
  let lo := Base64.byte_of_N (Z.to_N (u mod 256)) in
  let hi := Base64.byte_of_N (Z.to_N (u / 256)) in
  match order with
  | little => [lo; hi]
  | big => [hi; lo]
  end.

Fixpoint pack_int16 (order : ByteOrder) (samples : list Z) : bytes :=
  match samples with
  | [] => []
  | i :: samples' => int16_to_bytes order i ++ pack_int16 order samples'
  end.

(** The facts about 6-bit values and about the bits of one and of two
    bytes that the round trip rests on, in decidable form. *)
Definition sextet_ok (z : Z) : bool :=
  let v := Z.to_N z in
  match Base64.table_a2b_base64 (b64char v) with
  | Some v' => (v' =? v)%N
  | None => false
  end
  && negb (b64char v =? Base64.BASE64_PAD)%N
  && (b64char v <? 128)%N.

Definition byte_bits_ok (z : Z) : bool :=
  let n := Z.to_N z in
  ((N.lor (N.shiftl (N.shiftr n 2) 2) (N.land n 3) =? n)
   && (N.lor (N.shiftl (N.shiftr n 4) 4) (N.land n 15) =? n)
   && (N.lor (N.shiftl (N.shiftr n 6) 6) (N.land n 63) =? n)
   && (N.shiftr (N.shiftl (N.land n 3) 4) 4 =? N.land n 3)
   && (N.shiftr (N.shiftl (N.land n 15) 2) 2 =? N.land n 15)
   && (N.shiftr n 2 <? 64) && (N.land n 63 <? 64)
   && (N.shiftl (N.land n 3) 4 <? 64) && (N.shiftl (N.land n 15) 2 <? 64))%N.

Definition byte_pair_bits_ok (z0 z1 : Z) : bool :=
  let n0 := Z.to_N z0 in
  let n1 := Z.to_N z1 in
  ((N.shiftr (N.lor (N.shiftl (N.land n0 3) 4) (N.shiftr n1 4)) 4 =? N.land n0 3)
   && (N.land (N.lor (N.shiftl (N.land n0 3) 4) (N.shiftr n1 4)) 15 =? N.shiftr n1 4)
   && (N.shiftr (N.lor (N.shiftl (N.land n0 15) 2) (N.shiftr n1 6)) 2 =? N.land n0 15)
   && (N.land (N.lor (N.shiftl (N.land n0 15) 2) (N.shiftr n1 6)) 3 =? N.shiftr n1 6)
   && (N.lor (N.shiftl (N.land n0 3) 4) (N.shiftr n1 4) <? 64)
   && (N.lor (N.shiftl (N.land n0 15) 2) (N.shiftr n1 6) <? 64))%N.

Set Implicit Arguments.

(** * Properties *)

Unset Implicit Arguments.

(** ** Statements that only add library calls to the state *)

Section Steps.

Variable rt : Runtime.
Implicit Types s : State rt.

Lemma add_calls_nil s : add_calls s [] = s.
Proof. destruct s; unfold add_calls; simpl; now rewrite app_nil_r. Qed.

Lemma add_calls_app s l1 l2 :
  add_calls (add_calls s l1) l2 = add_calls s (l1 ++ l2).
Proof. unfold add_calls; simpl; now rewrite app_assoc. Qed.

Lemma steps_calls_of A (m : M rt A) s l r : steps m s l r -> calls_of m s = l.
Proof.
  unfold steps, calls_of; intros ->; simpl.
  induction (calls s) as [|c cs IH]; simpl; [reflexivity | exact IH].
Qed.

Lemma steps_outcome A (m : M rt A) s l r : steps m s l r -> outcome m s = r.
Proof. unfold steps, outcome; now intros ->. Qed.

Lemma steps_ret A (a : A) s : steps (ret a) s [] (Ok a).
Proof. unfold steps, ret; now rewrite add_calls_nil. Qed.

Lemma steps_raise A (e : exn) s : steps (raise (A := A) e) s [] (Raise e).
Proof. unfold steps, raise; now rewrite add_calls_nil. Qed.

Lemma steps_get A (g : State rt -> A) s : steps (get g) s [] (Ok (g s)).
Proof. unfold steps, get; now rewrite add_calls_nil. Qed.

Lemma steps_lift A (r : result A) s : steps (lift r) s [] r.
Proof. unfold steps, lift; now rewrite add_calls_nil. Qed.

Lemma steps_call A (c : Call) (r : result A) s : steps (call c r) s [c] r.
Proof. reflexivity. Qed.

Lemma steps_bind A B (m : M rt A) (k : A -> M rt B) s l1 a l2 r :
  steps m s l1 (Ok a) -> steps (k a) (add_calls s l1) l2 r ->
  steps (bind m k) s (l1 ++ l2) r.
Proof.
  unfold steps, bind; intros -> ->; now rewrite add_calls_app.
Qed.

Lemma steps_bind_raise A B (m : M rt A) (k : A -> M rt B) s l e :
  steps m s l (Raise e) -> steps (bind m k) s l (Raise e).
Proof. unfold steps, bind; now intros ->. Qed.

Lemma steps_try_ok A (body : M rt A) handler s l a :
  steps body s l (Ok a) -> steps (try_except body handler) s l (Ok a).
Proof. unfold steps, try_except; now intros ->. Qed.

Lemma steps_try_raise A (body : M rt A) handler s l1 e l2 r :
  steps body s l1 (Raise e) -> steps (handler e) (add_calls s l1) l2 r ->
  steps (try_except body handler) s (l1 ++ l2) r.
Proof.
  unfold steps, try_except; intros -> ->; now rewrite add_calls_app.
Qed.

Lemma framed_ret A (a : A) : framed (rt := rt) (ret a).
Proof. intros s; eauto using steps_ret. Qed.

Lemma framed_raise A (e : exn) : framed (rt := rt) (raise (A := A) e).
Proof. intros s; eauto using steps_raise. Qed.

Lemma framed_get A (g : State rt -> A) : framed (rt := rt) (get g).
Proof. intros s; eauto using steps_get. Qed.

Lemma framed_lift A (r : result A) : framed (rt := rt) (lift r).
Proof. intros s; eauto using steps_lift. Qed.

Lemma framed_call A (c : Call) (r : result A) : framed (rt := rt) (call c r).
Proof. intros s; eauto using steps_call. Qed.

Lemma framed_bind A B (m : M rt A) (k : A -> M rt B) :
  framed m -> (forall a, framed (k a)) -> framed (bind m k).
Proof.
  intros Hm Hk s. destruct (Hm s) as (l1 & [a|e] & H1).
  - destruct (Hk a (add_calls s l1)) as (l2 & r & H2).
    eauto using steps_bind.
  - eauto using steps_bind_raise.
Qed.

Lemma framed_try_except A (body : M rt A) handler :
  framed body -> (forall e, framed (handler e)) -> framed (try_except body handler).
Proof.
  intros Hb Hh s. destruct (Hb s) as (l1 & [a|e] & H1).
  - eauto using steps_try_ok.
  - destruct (Hh e (add_calls s l1)) as (l2 & r & H2).
    eauto using steps_try_raise.
Qed.

End Steps.

Ltac framed :=
  repeat first
    [ progress intros
    | apply framed_bind | apply framed_try_except
    | apply framed_ret | apply framed_raise | apply framed_get
    | apply framed_lift | apply framed_call
    | match goal with
      | |- framed (if ?b then _ else _) => destruct b
      | |- framed (match ?x with _ => _ end) => destruct x
      | |- framed (let _ := ?x in _) => destruct x
      end ].

Section Handlers.

Variable rt : Runtime.
Implicit Types s : State rt.

Lemma framed_infer p m audio : framed (rt := rt) (infer (rt := rt) p m audio).
Proof. unfold infer; framed. Qed.

Lemma framed_health_check : framed (rt := rt) (health_check rt).
Proof. unfold health_check; framed. Qed.

Lemma framed_transcribe_audio file : framed (rt := rt) (transcribe_audio rt file).
Proof.
  unfold transcribe_audio, transcribe_audio_body, internal_error, model_not_loaded.
  framed; apply framed_infer.
Qed.

Lemma framed_transcribe_pcm request : framed (rt := rt) (transcribe_pcm rt request).
Proof.
  unfold transcribe_pcm, transcribe_pcm_body, internal_error, model_not_loaded.
  framed; apply framed_infer.
Qed.

End Handlers.

(** ** Requests leave the globals alone *)

Lemma serve_frame rt (req : Request) (s : State rt) :
  exists l resp, serve rt req s = (add_calls s l, resp).
Proof.
  destruct req as [|file|audio sr]; unfold serve.
  - destruct (framed_health_check rt s) as (l & r & H). rewrite H. eauto.
  - destruct (framed_transcribe_audio rt file s) as (l & r & H). rewrite H. eauto.
  - destruct (framed_transcribe_pcm rt (TranscribeBase64Request_init audio sr) s)
      as (l & r & H).
    rewrite H. eauto.
Qed.

Lemma serve_all_frame rt (reqs : list Request) :
  forall s : State rt, exists l resps, serve_all rt reqs s = (add_calls s l, resps).
Proof.
  induction reqs as [|req reqs IH]; intros s; simpl.
  - exists [], []. now rewrite add_calls_nil.
  - destruct (serve_frame rt req s) as (l1 & resp & H1). rewrite H1.
    destruct (IH (add_calls s l1)) as (l2 & resps & H2). rewrite H2.
    rewrite add_calls_app. eauto.
Qed.

(** The startup routine is the writer: once [load_model] has returned, both
    globals hold a handle. *)
Lemma load_model_loads rt (s : State rt) :
  outcome (load_model rt) s = Ok tt ->
  processor (fst (load_model rt s)) <> None /\ model (fst (load_model rt s)) <> None.
Proof.
  unfold outcome, load_model, bind, call, set_processor, set_model; simpl.
  destruct (WhisperProcessor_from_pretrained rt MODEL_NAME); simpl; [|discriminate].
  destruct (WhisperForConditionalGeneration_from_pretrained rt MODEL_NAME (TORCH_DTYPE rt));
    simpl; [|discriminate].
  destruct (module_to rt a0 (DEVICE rt)); simpl; [|discriminate].
  intros _; split; discriminate.
Qed.

(** C9: the [model] and [processor] globals are not written by any request
    handler: after every sequence of requests to [/health], [/transcribe] and
    [/transcribe/pcm], from every state, both globals hold what they held
    before. *)
Theorem requests_preserve_globals rt (reqs : list Request) (s : State rt) :
  processor (fst (serve_all rt reqs s)) = processor s
  /\ model (fst (serve_all rt reqs s)) = model s.
Proof.
  destruct (serve_all_frame rt reqs s) as (l & resps & H).
  rewrite H. split; reflexivity.
Qed.

(** ** [GET /health] *)

(** Loading the model does not change what [torch.cuda.is_available()]
    answers, whether it succeeds or raises. *)
Lemma load_model_cuda rt (s : State rt) :
  cuda_is_available (fst (load_model rt s)) = cuda_is_available s.
Proof.
  unfold load_model, bind, call, set_processor, set_model; simpl.
  destruct (WhisperProcessor_from_pretrained rt MODEL_NAME); simpl; [|reflexivity].
  destruct (WhisperForConditionalGeneration_from_pretrained rt MODEL_NAME (TORCH_DTYPE rt));
    simpl; [|reflexivity].
  destruct (module_to rt a0 (DEVICE rt)); reflexivity.
Qed.

(** C8: every [GET /health] is answered with status 200 and the object with
    exactly the fields status, model, device and cuda_available: "healthy",
    [MODEL_NAME], the device chosen when the module was imported ("cuda" if
    CUDA was available then, "cpu" otherwise) and the current CUDA
    availability.  This holds in every state and the state is left as it
    was; in particular the answer is the same before [load_model] has run,
    after it has returned and after it has raised. *)
Theorem health_check_response rt (s : State rt) :
  serve rt GET_health s =
    (s, {| status_code := 200;
           content := JSON
             [(lit "status", JString (lit "healthy"));
              (lit "model", JString MODEL_NAME);
              (lit "device",
               JString (if cuda_is_available_at_import rt then lit "cuda" else lit "cpu"));
              (lit "cuda_available", JBool (cuda_is_available s))] |})
  /\ snd (serve rt GET_health (fst (load_model rt s))) = snd (serve rt GET_health s).
Proof.
  assert (H : forall s' : State rt,
             snd (serve rt GET_health s')
             = {| status_code := 200;
                  content := JSON
                    [(lit "status", JString (lit "healthy"));
                     (lit "model", JString MODEL_NAME);
                     (lit "device", JString (DEVICE rt));
                     (lit "cuda_available", JBool (cuda_is_available s'))] |})
    by reflexivity.
  split; [reflexivity|].
  rewrite (H (fst (load_model rt s))), (H s), load_model_cuda. reflexivity.
Qed.

(** ** The model-loaded check *)

Lemma transcribe_audio_unloaded rt (s : State rt) file :
  model s = None \/ processor s = None ->
  transcribe_audio rt file s = (s, Raise (HTTPException 503 (lit "Model not loaded yet"))).
Proof.
  intros H. unfold transcribe_audio, bind, get, model_not_loaded, raise.
  destruct H as [-> | H]; [reflexivity|].
  rewrite H. destruct (model s); reflexivity.
Qed.

Lemma transcribe_pcm_unloaded rt (s : State rt) request :
  model s = None \/ processor s = None ->
  transcribe_pcm rt request s = (s, Raise (HTTPException 503 (lit "Model not loaded yet"))).
Proof.
  intros H. unfold transcribe_pcm, bind, get, model_not_loaded, raise.
  destruct H as [-> | H]; [reflexivity|].
  rewrite H. destruct (model s); reflexivity.
Qed.

Lemma calls_of_unchanged rt A (m : M rt A) (s : State rt) r :
  m s = (s, r) -> calls_of m s = [].
Proof.
  intros H. apply steps_calls_of with (r := r).
  unfold steps. now rewrite H, add_calls_nil.
Qed.

(** C3: while [model] or [processor] is still [None], every request to
    [/transcribe] and to [/transcribe/pcm], whatever its payload, is answered
    with status 503, and the state, with its record of library calls, is
    left as it was: no audio processing takes place. *)
Theorem unloaded_gives_503 rt (s : State rt) :
  model s = None \/ processor s = None ->
  (forall file,
      serve rt (POST_transcribe file) s = (s, not_loaded_response)
      /\ calls_of (transcribe_audio rt file) s = [])
  /\ (forall audio rate,
      serve rt (POST_transcribe_pcm audio rate) s = (s, not_loaded_response)
      /\ calls_of (transcribe_pcm rt (TranscribeBase64Request_init audio rate)) s
         = []).
Proof.
  intros H. split.
  - intros file. pose proof (transcribe_audio_unloaded rt s file H) as Ha. split.
    + unfold serve. now rewrite Ha.
    + exact (calls_of_unchanged rt _ _ s _ Ha).
  - intros audio rate.
    pose proof (transcribe_pcm_unloaded rt s (TranscribeBase64Request_init audio rate) H)
      as Hb.
    split.
    + unfold serve. now rewrite Hb.
    + exact (calls_of_unchanged rt _ _ s _ Hb).
Qed.

Lemma unloaded_gives_503_witness :
  (forall file,
      serve (Fake.runtime true) (POST_transcribe file) (initial (Fake.runtime true) true)
      = (initial (Fake.runtime true) true, not_loaded_response)
      /\ calls_of (transcribe_audio (Fake.runtime true) file) (initial (Fake.runtime true) true) = [])
  /\ (forall audio rate,
      serve (Fake.runtime true) (POST_transcribe_pcm audio rate)
        (initial (Fake.runtime true) true)
      = (initial (Fake.runtime true) true, not_loaded_response)
      /\ calls_of (transcribe_pcm (Fake.runtime true)
                     (TranscribeBase64Request_init audio rate))
           (initial (Fake.runtime true) true) = []).
Proof.
  apply (@unloaded_gives_503 (Fake.runtime true) (initial (Fake.runtime true) true)).
  left; reflexivity.
Defined.

(** ** Outcomes of the transcription handlers *)

Section Outcomes.

Variable rt : Runtime.
Implicit Types s : State rt.

Lemma ensures_ret A (a : A) (P : A -> Prop) : P a -> ensures (rt := rt) (ret a) P.
Proof. intros H s; exact H. Qed.

Lemma ensures_raise A (e : exn) (P : A -> Prop) : ensures (rt := rt) (raise e) P.
Proof. intros s; exact I. Qed.

Lemma ensures_bind A B (m : M rt A) (k : A -> M rt B) (P : B -> Prop) :
  (forall a, ensures (k a) P) -> ensures (bind m k) P.
Proof.
  intros Hk s. unfold outcome, bind.
  destruct (m s) as [s' [a|e]]; [apply Hk | exact I].
Qed.

Lemma ensures_infer p m audio :
  ensures (infer (rt := rt) p m audio) (fun r => language r = lit "is").
Proof.
  unfold infer. repeat (apply ensures_bind; intros).
  destruct a2; [apply ensures_raise | now apply ensures_ret].
Qed.

Lemma ensures_transcribe_audio_body p m file :
  ensures (transcribe_audio_body (rt := rt) p m file) (fun r => language r = lit "is").
Proof.
  unfold transcribe_audio_body. do 2 (apply ensures_bind; intros).
  destruct a0. do 2 (apply ensures_bind; intros). apply ensures_infer.
Qed.

Lemma ensures_transcribe_pcm_body p m request :
  ensures (transcribe_pcm_body (rt := rt) p m request) (fun r => language r = lit "is").
Proof.
  unfold transcribe_pcm_body. do 4 (apply ensures_bind; intros). apply ensures_infer.
Qed.

(** With the model loaded, a handler is its body inside [try ... except
    Exception as e: raise HTTPException(status_code=500, detail=str(e))]. *)
Lemma transcribe_audio_loaded s p m file :
  processor s = Some p -> model s = Some m ->
  transcribe_audio rt file s = try_except (transcribe_audio_body p m file) internal_error s.
Proof.
  intros Hp Hm. unfold transcribe_audio, bind, get. now rewrite Hp, Hm.
Qed.

Lemma transcribe_pcm_loaded s p m request :
  processor s = Some p -> model s = Some m ->
  transcribe_pcm rt request s = try_except (transcribe_pcm_body p m request) internal_error s.
Proof.
  intros Hp Hm. unfold transcribe_pcm, bind, get. now rewrite Hp, Hm.
Qed.

Lemma outcome_try_except A (body : M rt A) s :
  outcome (try_except body internal_error) s =
    match outcome body s with
    | Ok a => Ok a
    | Raise e => Raise (HTTPException 500 (str_of_exn e))
    end.
Proof.
  unfold outcome, try_except, internal_error, raise.
  destruct (body s) as [s' [a|e]]; reflexivity.
Qed.

Lemma handled_try_except (body : M rt TranscriptionResponse) s :
  ensures body (fun r => language r = lit "is") ->
  handled (outcome (try_except body internal_error) s).
Proof.
  intros H. rewrite outcome_try_except. specialize (H s).
  destruct (outcome body s); simpl; eauto.
Qed.

Lemma handled_transcribe_audio file s : handled (outcome (transcribe_audio rt file) s).
Proof.
  destruct (model s) as [m|] eqn:Hm; [destruct (processor s) as [p|] eqn:Hp|].
  - unfold outcome. rewrite (transcribe_audio_loaded s p m file Hp Hm).
    apply handled_try_except, ensures_transcribe_audio_body.
  - unfold outcome, transcribe_audio, bind, get. rewrite Hm, Hp. simpl. now left.
  - unfold outcome, transcribe_audio, bind, get. rewrite Hm. simpl. now left.
Qed.

Lemma handled_transcribe_pcm request s : handled (outcome (transcribe_pcm rt request) s).
Proof.
  destruct (model s) as [m|] eqn:Hm; [destruct (processor s) as [p|] eqn:Hp|].
  - unfold outcome. rewrite (transcribe_pcm_loaded s p m request Hp Hm).
    apply handled_try_except, ensures_transcribe_pcm_body.
  - unfold outcome, transcribe_pcm, bind, get. rewrite Hm, Hp. simpl. now left.
  - unfold outcome, transcribe_pcm, bind, get. rewrite Hm. simpl. now left.
Qed.

Lemma respond_handled r resp :
  handled r -> resp = respond json_of_TranscriptionResponse r ->
  200 <= status_code resp <= 299 ->
  exists t, content resp = JSON [(lit "text", JString t); (lit "language", JString (lit "is"))].
Proof.
  intros H -> Hs. destruct r as [a|e]; simpl in *.
  - exists (text a). unfold json_of_TranscriptionResponse. now rewrite H.
  - destruct H as [-> | [e' ->]]; simpl in Hs; lia.
Qed.

Lemma serve_transcribe file s :
  snd (serve rt (POST_transcribe file) s)
  = respond json_of_TranscriptionResponse (outcome (transcribe_audio rt file) s).
Proof. unfold serve, outcome. now destruct (transcribe_audio rt file s). Qed.

Lemma serve_transcribe_pcm audio sr s :
  snd (serve rt (POST_transcribe_pcm audio sr) s)
  = respond json_of_TranscriptionResponse
      (outcome (transcribe_pcm rt (TranscribeBase64Request_init audio sr)) s).
Proof.
  unfold serve, outcome.
  now destruct (transcribe_pcm rt (TranscribeBase64Request_init audio sr) s).
Qed.

End Outcomes.

(** C7: every response with a 2xx status from [/transcribe] and from
    [/transcribe/pcm] is the JSON object with exactly the fields text and
    language, in that order, and its language is "is". *)
Theorem success_is_text_and_language rt (s : State rt) :
  (forall file,
      200 <= status_code (snd (serve rt (POST_transcribe file) s)) <= 299 ->
      exists t, content (snd (serve rt (POST_transcribe file) s))
                = JSON [(lit "text", JString t); (lit "language", JString (lit "is"))])
  /\ (forall audio rate,
      200 <= status_code (snd (serve rt (POST_transcribe_pcm audio rate) s)) <= 299 ->
      exists t, content (snd (serve rt (POST_transcribe_pcm audio rate) s))
                = JSON [(lit "text", JString t); (lit "language", JString (lit "is"))]).
Proof.
  split.
  - intros file H.
    apply (respond_handled (outcome (transcribe_audio rt file) s));
      [apply handled_transcribe_audio | apply serve_transcribe | exact H].
  - intros audio sr H.
    apply (respond_handled
             (outcome (transcribe_pcm rt (TranscribeBase64Request_init audio sr)) s));
      [apply handled_transcribe_pcm | apply serve_transcribe_pcm | exact H].
Qed.

Lemma success_is_text_and_language_witness :
  (exists t,
      content (snd (serve (Fake.runtime true)
                      (POST_transcribe {| read := Ok [x02; x44; xac; x00; x40; x00; x20] |})
                      (Fake.ready true)))
      = JSON [(lit "text", JString t); (lit "language", JString (lit "is"))])
  /\ (exists t,
      content (snd (serve (Fake.runtime true) (POST_transcribe_pcm (lit "AAAAAAAA") None)
                      (Fake.ready true)))
      = JSON [(lit "text", JString t); (lit "language", JString (lit "is"))]).
Proof.
  split.
  - apply (proj1 (success_is_text_and_language (Fake.runtime true) (Fake.ready true))).
    vm_compute. split; discriminate.
  - apply (proj2 (success_is_text_and_language (Fake.runtime true) (Fake.ready true))).
    vm_compute. split; discriminate.
Defined.

(** ** The [except Exception] clauses *)

(** C4: with the model loaded, every exception [e] that the body of a
    transcription handler raises is caught by the handler, which raises
    [HTTPException(status_code=500, detail=str(e))] in its place; the
    response has status 500 and that detail.  A handler never ends with any
    other exception than an [HTTPException]. *)
Theorem exceptions_become_500 rt (s : State rt) p m :
  processor s = Some p -> model s = Some m ->
  (forall file e,
      outcome (transcribe_audio_body p m file) s = Raise e ->
      outcome (transcribe_audio rt file) s = Raise (HTTPException 500 (str_of_exn e))
      /\ snd (serve rt (POST_transcribe file) s)
         = {| status_code := 500;
              content := JSON [(lit "detail", JString (str_of_exn e))] |})
  /\ (forall audio rate e,
      outcome (transcribe_pcm_body p m (TranscribeBase64Request_init audio rate)) s
      = Raise e ->
      outcome (transcribe_pcm rt (TranscribeBase64Request_init audio rate)) s
      = Raise (HTTPException 500 (str_of_exn e))
      /\ snd (serve rt (POST_transcribe_pcm audio rate) s)
         = {| status_code := 500;
              content := JSON [(lit "detail", JString (str_of_exn e))] |})
  /\ (forall file cls msg,
      outcome (transcribe_audio rt file) s <> Raise (Exception cls msg))
  /\ (forall request cls msg,
      outcome (transcribe_pcm rt request) s <> Raise (Exception cls msg)).
Proof.
  intros Hp Hm.
  assert (Ha : forall file,
             outcome (transcribe_audio rt file) s
             = match outcome (transcribe_audio_body p m file) s with
               | Ok a => Ok a
               | Raise e => Raise (HTTPException 500 (str_of_exn e))
               end).
  { intros file. unfold outcome at 1.
    rewrite (transcribe_audio_loaded rt s p m file Hp Hm).
    apply outcome_try_except. }
  assert (Hb : forall request,
             outcome (transcribe_pcm rt request) s
             = match outcome (transcribe_pcm_body p m request) s with
               | Ok a => Ok a
               | Raise e => Raise (HTTPException 500 (str_of_exn e))
               end).
  { intros request. unfold outcome at 1.
    rewrite (transcribe_pcm_loaded rt s p m request Hp Hm).
    apply outcome_try_except. }
  split; [|split; [|split]].
  - intros file e H. rewrite serve_transcribe, Ha, H. split; reflexivity.
  - intros audio rate e H. rewrite serve_transcribe_pcm, Hb, H. split; reflexivity.
  - intros file cls msg H. pose proof (handled_transcribe_audio rt file s) as Hh.
    rewrite H in Hh. destruct Hh as [Hh | [e' Hh]]; discriminate.
  - intros request cls msg H. pose proof (handled_transcribe_pcm rt request s) as Hh.
    rewrite H in Hh. destruct Hh as [Hh | [e' Hh]]; discriminate.
Qed.

(** ** The path of the audio through a handler *)

Section Traces.

Variable rt : Runtime.
Implicit Types s : State rt.

Lemma quiet_ret A (a : A) : quiet rt (ret a).
Proof. intros s; exists [], (Ok a); split; [apply steps_ret | reflexivity]. Qed.

Lemma quiet_raise A (e : exn) : quiet rt (raise (A := A) e).
Proof. intros s; exists [], (Raise e); split; [apply steps_raise | reflexivity]. Qed.

Lemma quiet_call A (c : Call) (r : result A) :
  is_audio_step c = false -> quiet rt (call c r).
Proof.
  intros H s; exists [c], r; split; [apply steps_call|].
  unfold audio_path; simpl; now rewrite H.
Qed.

Lemma quiet_bind A B (m : M rt A) (k : A -> M rt B) :
  quiet rt m -> (forall a, quiet rt (k a)) -> quiet rt (bind m k).
Proof.
  intros Hm Hk s. destruct (Hm s) as (l1 & [a|e] & H1 & Q1).
  - destruct (Hk a (add_calls s l1)) as (l2 & r & H2 & Q2).
    exists (l1 ++ l2), r; split; [eapply steps_bind; eauto|].
    unfold audio_path in *. now rewrite filter_app, Q1, Q2.
  - exists l1, (Raise e); split; [now apply steps_bind_raise | exact Q1].
Qed.

(** Feature extraction is the first call of the inference part and
    receives the audio with [sampling_rate=16000]; no other step of the
    audio path follows. *)
Lemma infer_steps p m audio s :
  exists l r,
    steps (infer p m audio) s (Call_processor audio 16000 :: l) r
    /\ audio_path l = [].
Proof.
  unfold infer.
  destruct (processor_call rt p audio 16000) as [features|e].
  - match goal with
    | |- context [bind (call _ _) ?k] =>
        assert (Hq : quiet rt (k features))
    end.
    { repeat (apply quiet_bind; [now apply quiet_call | intros]).
      destruct a1; [apply quiet_raise | apply quiet_ret]. }
    destruct (Hq (add_calls s [Call_processor audio 16000])) as (l & r & H & Q).
    exists l, r; split; [|exact Q].
    apply steps_bind with (l1 := [Call_processor audio 16000]) (a := features) (l2 := l);
      [apply steps_call | exact H].
  - exists [], (Raise e); split; [|reflexivity].
    apply steps_bind_raise, steps_call.
Qed.

(** The resampling step, as written in both handlers. *)
Lemma resample_steps audio rate s :
  steps (if negb (rate =? 16000)
         then bind (lift (import_librosa rt))
                (fun _ => call (Call_resample audio rate 16000)
                            (librosa_resample rt audio rate 16000))
         else ret audio)
    s (fst (resample_stage rt audio rate)) (snd (resample_stage rt audio rate)).
Proof.
  unfold resample_stage. destruct (rate =? 16000); simpl.
  - apply steps_ret.
  - destruct (import_librosa rt) as [[]|e]; simpl.
    + apply steps_bind with (l1 := []) (a := tt)
        (l2 := [Call_resample audio rate 16000]);
        [apply steps_lift | apply steps_call].
    + apply steps_bind_raise, steps_lift.
Qed.

(** From the resampling step to the end of a handler's body. *)
Lemma resample_then_infer_steps p m audio rate s :
  exists l r,
    steps (bind (if negb (rate =? 16000)
                 then bind (lift (import_librosa rt))
                        (fun _ => call (Call_resample audio rate 16000)
                                    (librosa_resample rt audio rate 16000))
                 else ret audio)
             (fun audio' => infer p m audio'))
      s (fst (resample_stage rt audio rate) ++ l) r
    /\ match snd (resample_stage rt audio rate) with
       | Ok audio' => exists l', l = Call_processor audio' 16000 :: l' /\ audio_path l' = []
       | Raise _ => l = []
       end.
Proof.
  pose proof (resample_steps audio rate s) as Hr.
  destruct (snd (resample_stage rt audio rate)) as [audio'|e].
  - destruct (infer_steps p m audio' (add_calls s (fst (resample_stage rt audio rate))))
      as (l' & r & Hi & Q).
    exists (Call_processor audio' 16000 :: l'), r; split; [|eauto].
    eapply steps_bind; eauto.
  - exists [], (Raise e); split; [|reflexivity].
    rewrite app_nil_r. now apply steps_bind_raise.
Qed.

(** The handler around a body adds no call of its own. *)
Lemma try_except_steps A (body : M rt A) s l r :
  steps body s l r -> exists r', steps (try_except body internal_error) s l r'.
Proof.
  intros H. destruct r as [a|e].
  - exists (Ok a). now apply steps_try_ok.
  - exists (Raise (HTTPException 500 (str_of_exn e))).
    rewrite <- (app_nil_r l). eapply steps_try_raise; [exact H | apply steps_raise].
Qed.

Lemma transcribe_pcm_path s p m request audio_bytes audio_int16 :
  processor s = Some p -> model s = Some m ->
  Base64.b64decode (audio_data request) = Ok audio_bytes ->
  Numpy.frombuffer_int16 (byteorder rt) audio_bytes = Ok audio_int16 ->
  audio_path (calls_of (transcribe_pcm rt request) s)
  = expected_path rt (Numpy.pcm_to_float audio_int16) (sample_rate request).
Proof.
  intros Hp Hm Hb Hf.
  destruct (resample_then_infer_steps p m (Numpy.pcm_to_float audio_int16)
              (sample_rate request)
              (add_calls s [Call_b64decode (audio_data request); Call_frombuffer audio_bytes]))
    as (l & r & H & Hl).
  assert (Hbody : steps (transcribe_pcm_body p m request) s
                    ([Call_b64decode (audio_data request); Call_frombuffer audio_bytes]
                     ++ fst (resample_stage rt (Numpy.pcm_to_float audio_int16)
                               (sample_rate request)) ++ l) r).
  { unfold transcribe_pcm_body.
    apply steps_bind with (l1 := [Call_b64decode (audio_data request)]) (a := audio_bytes)
      (l2 := [Call_frombuffer audio_bytes]
             ++ fst (resample_stage rt (Numpy.pcm_to_float audio_int16)
                       (sample_rate request)) ++ l);
      [rewrite <- Hb; apply steps_call|].
    apply steps_bind with (l1 := [Call_frombuffer audio_bytes]) (a := audio_int16)
      (l2 := fst (resample_stage rt (Numpy.pcm_to_float audio_int16)
                    (sample_rate request)) ++ l);
      [rewrite <- Hf; apply steps_call|].
    rewrite add_calls_app. simpl.
    apply steps_bind with (l1 := []) (a := Numpy.pcm_to_float audio_int16)
      (l2 := fst (resample_stage rt (Numpy.pcm_to_float audio_int16)
                    (sample_rate request)) ++ l);
      [apply steps_ret|].
    rewrite add_calls_app, app_nil_r. exact H. }
  destruct (try_except_steps _ _ _ _ _ Hbody) as (r' & Ht).
  unfold steps in Ht. rewrite <- (transcribe_pcm_loaded rt s p m request Hp Hm) in Ht.
  rewrite (steps_calls_of _ _ _ _ _ _ Ht).
  unfold expected_path, audio_path in *. simpl. rewrite filter_app. f_equal.
  destruct (snd (resample_stage rt (Numpy.pcm_to_float audio_int16) (sample_rate request))).
  - destruct Hl as (l' & -> & Q). simpl. now rewrite Q.
  - now subst l.
Qed.

Lemma transcribe_audio_path s p m file audio_bytes audio rate :
  processor s = Some p -> model s = Some m ->
  read file = Ok audio_bytes ->
  sf_read rt audio_bytes = Ok (audio, rate) ->
  audio_path (calls_of (transcribe_audio rt file) s)
  = expected_path rt (to_mono audio) rate.
Proof.
  intros Hp Hm Hb Hf.
  destruct (resample_then_infer_steps p m (to_mono audio) rate
              (add_calls s [Call_file_read; Call_sf_read audio_bytes]))
    as (l & r & H & Hl).
  assert (Hbody : steps (transcribe_audio_body p m file) s
                    ([Call_file_read; Call_sf_read audio_bytes]
                     ++ fst (resample_stage rt (to_mono audio) rate) ++ l) r).
  { unfold transcribe_audio_body.
    apply steps_bind with (l1 := [Call_file_read]) (a := audio_bytes)
      (l2 := [Call_sf_read audio_bytes]
             ++ fst (resample_stage rt (to_mono audio) rate) ++ l);
      [rewrite <- Hb; apply steps_call|].
    apply steps_bind with (l1 := [Call_sf_read audio_bytes]) (a := (audio, rate))
      (l2 := fst (resample_stage rt (to_mono audio) rate) ++ l);
      [rewrite <- Hf; apply steps_call|].
    rewrite add_calls_app. simpl.
    apply steps_bind with (l1 := []) (a := to_mono audio)
      (l2 := fst (resample_stage rt (to_mono audio) rate) ++ l).
    - destruct audio; simpl; [apply steps_ret | apply steps_lift].
    - rewrite add_calls_app, app_nil_r. exact H. }
  destruct (try_except_steps _ _ _ _ _ Hbody) as (r' & Ht).
  unfold steps in Ht. rewrite <- (transcribe_audio_loaded rt s p m file Hp Hm) in Ht.
  rewrite (steps_calls_of _ _ _ _ _ _ Ht).
  unfold expected_path, audio_path in *. simpl. rewrite filter_app. f_equal.
  destruct (snd (resample_stage rt (to_mono audio) rate)).
  - destruct Hl as (l' & -> & Q). simpl. now rewrite Q.
  - now subst l.
Qed.

End Traces.

Section Paths.

Variable rt : Runtime.
Implicit Types s : State rt.

Lemma transcribe_pcm_b64decode_raises s p m request e :
  Base64.b64decode (audio_data request) = Raise e ->
  steps (transcribe_pcm_body p m request) s [Call_b64decode (audio_data request)] (Raise e).
Proof.
  intros H. unfold transcribe_pcm_body.
  apply steps_bind_raise. rewrite <- H. apply steps_call.
Qed.

Lemma transcribe_pcm_frombuffer_raises s p m request audio_bytes e :
  Base64.b64decode (audio_data request) = Ok audio_bytes ->
  Numpy.frombuffer_int16 (byteorder rt) audio_bytes = Raise e ->
  steps (transcribe_pcm_body p m request) s
    [Call_b64decode (audio_data request); Call_frombuffer audio_bytes] (Raise e).
Proof.
  intros Hb Hf. unfold transcribe_pcm_body.
  apply steps_bind with (l1 := [Call_b64decode (audio_data request)]) (a := audio_bytes)
    (l2 := [Call_frombuffer audio_bytes]);
    [rewrite <- Hb; apply steps_call|].
  apply steps_bind_raise. rewrite <- Hf. apply steps_call.
Qed.

Lemma transcribe_audio_read_raises s p m file e :
  read file = Raise e ->
  steps (transcribe_audio_body p m file) s [Call_file_read] (Raise e).
Proof.
  intros H. unfold transcribe_audio_body.
  apply steps_bind_raise. rewrite <- H. apply steps_call.
Qed.

Lemma transcribe_audio_sf_read_raises s p m file audio_bytes e :
  read file = Ok audio_bytes ->
  sf_read rt audio_bytes = Raise e ->
  steps (transcribe_audio_body p m file) s
    [Call_file_read; Call_sf_read audio_bytes] (Raise e).
Proof.
  intros Hb Hf. unfold transcribe_audio_body.
  apply steps_bind with (l1 := [Call_file_read]) (a := audio_bytes)
    (l2 := [Call_sf_read audio_bytes]);
    [rewrite <- Hb; apply steps_call|].
  apply steps_bind_raise. rewrite <- Hf. apply steps_call.
Qed.

(** An exception of the body is answered with status 500. *)
Lemma body_raise_pcm s p m audio rate l e :
  processor s = Some p -> model s = Some m ->
  steps (transcribe_pcm_body p m (TranscribeBase64Request_init audio rate)) s l (Raise e) ->
  snd (serve rt (POST_transcribe_pcm audio rate) s)
  = {| status_code := 500; content := JSON [(lit "detail", JString (str_of_exn e))] |}
  /\ calls_of (transcribe_pcm rt (TranscribeBase64Request_init audio rate)) s = l.
Proof.
  intros Hp Hm H. split.
  - rewrite serve_transcribe_pcm. unfold outcome.
    rewrite (transcribe_pcm_loaded rt s p m _ Hp Hm).
    fold (outcome (try_except
                     (transcribe_pcm_body p m (TranscribeBase64Request_init audio rate))
                     internal_error) s).
    rewrite outcome_try_except, (steps_outcome _ _ _ _ _ _ H). reflexivity.
  - apply steps_calls_of with (r := Raise (HTTPException 500 (str_of_exn e))).
    unfold steps. rewrite (transcribe_pcm_loaded rt s p m _ Hp Hm).
    rewrite <- (app_nil_r l). eapply steps_try_raise; [exact H | apply steps_raise].
Qed.

Lemma body_raise_audio s p m file l e :
  processor s = Some p -> model s = Some m ->
  steps (transcribe_audio_body p m file) s l (Raise e) ->
  snd (serve rt (POST_transcribe file) s)
  = {| status_code := 500; content := JSON [(lit "detail", JString (str_of_exn e))] |}
  /\ calls_of (transcribe_audio rt file) s = l.
Proof.
  intros Hp Hm H. split.
  - rewrite serve_transcribe. unfold outcome.
    rewrite (transcribe_audio_loaded rt s p m _ Hp Hm).
    fold (outcome (try_except (transcribe_audio_body p m file) internal_error) s).
    rewrite outcome_try_except, (steps_outcome _ _ _ _ _ _ H). reflexivity.
  - apply steps_calls_of with (r := Raise (HTTPException 500 (str_of_exn e))).
    unfold steps. rewrite (transcribe_audio_loaded rt s p m _ Hp Hm).
    rewrite <- (app_nil_r l). eapply steps_try_raise; [exact H | apply steps_raise].
Qed.

(** The audio path of [/transcribe/pcm], in every state and for every
    request. *)
Lemma transcribe_pcm_path_total s audio rate :
  audio_path (calls_of (transcribe_pcm rt (TranscribeBase64Request_init audio rate)) s)
  = match model s, processor s, pcm_audio rt (TranscribeBase64Request_init audio rate) with
    | Some _, Some _, Some x =>
        expected_path rt x (sample_rate (TranscribeBase64Request_init audio rate))
    | _, _, _ => []
    end.
Proof.
  set (request := TranscribeBase64Request_init audio rate).
  destruct (model s) as [m|] eqn:Hm;
    [destruct (processor s) as [p|] eqn:Hp|].
  - unfold pcm_audio.
    destruct (Base64.b64decode (audio_data request)) as [audio_bytes|e] eqn:Hb.
    + destruct (Numpy.frombuffer_int16 (byteorder rt) audio_bytes) as [audio_int16|e] eqn:Hf.
      * now apply transcribe_pcm_path with (p := p) (m := m) (audio_bytes := audio_bytes).
      * pose proof (transcribe_pcm_frombuffer_raises s p m request audio_bytes e Hb Hf) as H.
        destruct (body_raise_pcm s p m audio rate _ e Hp Hm H) as [_ H'].
        fold request in H'. rewrite H'. reflexivity.
    + pose proof (transcribe_pcm_b64decode_raises s p m request e Hb) as H.
      destruct (body_raise_pcm s p m audio rate _ e Hp Hm H) as [_ H'].
      fold request in H'. rewrite H'. reflexivity.
  - rewrite (calls_of_unchanged rt _ _ s _
               (transcribe_pcm_unloaded rt s request (or_intror Hp))).
    reflexivity.
  - rewrite (calls_of_unchanged rt _ _ s _
               (transcribe_pcm_unloaded rt s request (or_introl Hm))).
    reflexivity.
Qed.

Lemma expected_path_16000 audio : expected_path rt audio 16000 = [Call_processor audio 16000].
Proof. reflexivity. Qed.

Lemma expected_path_other audio rate :
  rate <> 16000 ->
  expected_path rt audio rate
  = match import_librosa rt with
    | Ok _ =>
        Call_resample audio rate 16000
        :: match librosa_resample rt audio rate 16000 with
           | Ok audio' => [Call_processor audio' 16000]
           | Raise _ => []
           end
    | Raise _ => []
    end.
Proof.
  intros H. unfold expected_path, resample_stage.
  destruct (Z.eqb_spec rate 16000) as [E|_]; [contradiction|].
  destruct (import_librosa rt); reflexivity.
Qed.

Lemma filter_resample_audio_path l :
  filter is_resample l = filter is_resample (audio_path l).
Proof.
  unfold audio_path. induction l as [|c l IH]; simpl; [reflexivity|].
  destruct c; simpl; rewrite IH; reflexivity.
Qed.

End Paths.

(** ** Resampling *)

(** C1: with the model loaded, a transcription request whose audio has
    sample rate 16000 has its samples passed to the processor as they are,
    with no resampling call; at any other rate [r] the samples are resampled
    from [r] to 16000 first and the processor receives the resampler's
    output (and is not called when [import librosa] or the resampler
    raises).  The audio is the mono buffer for [/transcribe] and the decoded
    PCM samples for [/transcribe/pcm]; the processor is always called with
    [sampling_rate=16000]. *)
Theorem resampled_unless_16000 rt (s : State rt) p m :
  processor s = Some p -> model s = Some m ->
  (forall file audio_bytes audio rate,
      read file = Ok audio_bytes ->
      sf_read rt audio_bytes = Ok (audio, rate) ->
      (rate = 16000 ->
       audio_path (calls_of (transcribe_audio rt file) s)
       = [Call_processor (to_mono audio) 16000])
      /\ (rate <> 16000 ->
          audio_path (calls_of (transcribe_audio rt file) s)
          = match import_librosa rt with
            | Ok _ =>
                Call_resample (to_mono audio) rate 16000
                :: match librosa_resample rt (to_mono audio) rate 16000 with
                   | Ok audio' => [Call_processor audio' 16000]
                   | Raise _ => []
                   end
            | Raise _ => []
            end))
  /\ (forall request audio_bytes audio_int16,
      Base64.b64decode (audio_data request) = Ok audio_bytes ->
      Numpy.frombuffer_int16 (byteorder rt) audio_bytes = Ok audio_int16 ->
      (sample_rate request = 16000 ->
       audio_path (calls_of (transcribe_pcm rt request) s)
       = [Call_processor (Numpy.pcm_to_float audio_int16) 16000])
      /\ (sample_rate request <> 16000 ->
          audio_path (calls_of (transcribe_pcm rt request) s)
          = match import_librosa rt with
            | Ok _ =>
                Call_resample (Numpy.pcm_to_float audio_int16) (sample_rate request) 16000
                :: match librosa_resample rt (Numpy.pcm_to_float audio_int16)
                           (sample_rate request) 16000 with
                   | Ok audio' => [Call_processor audio' 16000]
                   | Raise _ => []
                   end
            | Raise _ => []
            end)).
Proof.
  intros Hp Hm. split.
  - intros file audio_bytes audio rate Hb Hf.
    rewrite (transcribe_audio_path rt s p m file audio_bytes audio rate Hp Hm Hb Hf).
    split.
    + intros ->. apply expected_path_16000.
    + apply expected_path_other.
  - intros request audio_bytes audio_int16 Hb Hf.
    rewrite (transcribe_pcm_path rt s p m request audio_bytes audio_int16 Hp Hm Hb Hf).
    split.
    + intros ->. apply expected_path_16000.
    + apply expected_path_other.
Qed.

Lemma resampled_unless_16000_witness :
  (audio_path (calls_of (transcribe_audio (Fake.runtime true) Fake.mono_16000) (Fake.ready true))
   = [Call_processor (Array1 [Fake.sample 16384; Fake.sample 8192]) 16000])
  /\ (audio_path (calls_of (transcribe_audio (Fake.runtime true) Fake.stereo_44100)
                    (Fake.ready true))
      = [Call_resample (Array1 [mean_frame [Fake.sample 16384; Fake.sample 8192];
                                mean_frame [Fake.sample (-32768); Fake.sample 32767]])
           44100 16000;
         Call_processor (Array1 [mean_frame [Fake.sample 16384; Fake.sample 8192]]) 16000])
  /\ (audio_path (calls_of (transcribe_pcm (Fake.runtime true)
                              (TranscribeBase64Request_init Fake.four_samples (Some 16000)))
                    (Fake.ready true))
      = [Call_processor (Numpy.pcm_to_float [1; 32767; -32768; -1]) 16000])
  /\ (audio_path (calls_of (transcribe_pcm (Fake.runtime true)
                              (TranscribeBase64Request_init Fake.four_samples (Some 8000)))
                    (Fake.ready true))
      = [Call_resample (Numpy.pcm_to_float [1; 32767; -32768; -1]) 8000 16000;
         Call_processor (Array1 [Numpy.pcm_item_to_float 1; Numpy.pcm_item_to_float (-32768)])
           16000]).
Proof.
  pose proof (resampled_unless_16000 (Fake.runtime true) (Fake.ready true) tt tt
                eq_refl eq_refl) as [Ha Hb].
  split; [|split; [|split]].
  - apply (proj1 (Ha Fake.mono_16000 [x01; x80; x3e; x00; x40; x00; x20]
                    (Array1 [Fake.sample 16384; Fake.sample 8192]) 16000
                    eq_refl eq_refl)).
    reflexivity.
  - apply (proj2 (Ha Fake.stereo_44100
                    [x02; x44; xac; x00; x40; x00; x20; x00; x80; xff; x7f]
                    (Array2 [[Fake.sample 16384; Fake.sample 8192];
                             [Fake.sample (-32768); Fake.sample 32767]]) 44100
                    eq_refl eq_refl)).
    discriminate.
  - apply (proj1 (Hb (TranscribeBase64Request_init Fake.four_samples (Some 16000))
                    Fake.four_samples_bytes [1; 32767; -32768; -1] eq_refl eq_refl)).
    reflexivity.
  - apply (proj2 (Hb (TranscribeBase64Request_init Fake.four_samples (Some 8000))
                    Fake.four_samples_bytes [1; 32767; -32768; -1] eq_refl eq_refl)).
    simpl. discriminate.
Defined.

Lemma exceptions_become_500_witness :
  (outcome (transcribe_audio (Fake.runtime true) Fake.no_audio) (Fake.ready true)
    = Raise (HTTPException 500 (lit "Format not recognised.")))
  /\ (snd (serve (Fake.runtime true) (POST_transcribe_pcm (lit "AAAA#AAA") None) (Fake.ready true))
      = {| status_code := 500;
           content := JSON [(lit "detail", JString (lit "Incorrect padding"))] |}).
Proof.
  pose proof (exceptions_become_500 (Fake.runtime true) (Fake.ready true) tt tt
                eq_refl eq_refl) as (Ha & Hb & _).
  split.
  - apply (proj1 (Ha Fake.no_audio Fake.not_recognised eq_refl)).
  - apply (proj2 (Hb (lit "AAAA#AAA") None (Base64.Error (lit "Incorrect padding")) eq_refl)).
Defined.

(** ** Mixing to mono *)

Lemma first_audio_expected_path rt audio rate :
  rate = 16000 \/ import_librosa rt = Ok tt ->
  match expected_path rt audio rate with
  | c :: _ => audio_of c
  | [] => None
  end = Some audio.
Proof.
  intros H. unfold expected_path, resample_stage.
  destruct (Z.eqb_spec rate 16000) as [E|E]; [reflexivity|].
  destruct H as [H|H]; [contradiction|]. rewrite H. reflexivity.
Qed.

(** C6: in [/transcribe], with the model loaded, a decoded buffer of two
    dimensions (frames by channels) is replaced by the one-dimensional array
    of its per-frame means, each the sum of the frame's channels divided by
    their number, and a one-dimensional buffer is kept as it is: that array is
    what the next step of the audio path receives, the resampler or, at
    16000 Hz, the processor. *)
Theorem multichannel_mixed_to_mono rt (s : State rt) p m :
  processor s = Some p -> model s = Some m ->
  forall file audio_bytes audio rate,
    read file = Ok audio_bytes ->
    sf_read rt audio_bytes = Ok (audio, rate) ->
    rate = 16000 \/ import_librosa rt = Ok tt ->
    first_audio (calls_of (transcribe_audio rt file) s)
    = Some match audio with
           | Array2 frames =>
               Array1 (map (fun frame =>
                              F64.div (fold_left F64.add frame F64.zero)
                                (F64.of_int (Z.of_nat (List.length frame))))
                         frames)
           | Array1 data => Array1 data
           end.
Proof.
  intros Hp Hm file audio_bytes audio rate Hb Hf Hr.
  unfold first_audio.
  rewrite (transcribe_audio_path rt s p m file audio_bytes audio rate Hp Hm Hb Hf).
  rewrite (first_audio_expected_path rt (to_mono audio) rate Hr).
  destruct audio; reflexivity.
Qed.

Lemma multichannel_mixed_to_mono_witness :
  (first_audio (calls_of (transcribe_audio (Fake.runtime true) Fake.stereo_44100) (Fake.ready true))
   = Some (Array1 [S754_finite false 6755399441055744 (-54);
                   S754_finite true 4503599627370496 (-68)]))
  /\ (first_audio (calls_of (transcribe_audio (Fake.runtime true) Fake.mono_16000) (Fake.ready true))
      = Some (Array1 [Fake.sample 16384; Fake.sample 8192])).
Proof.
  split.
  - apply (multichannel_mixed_to_mono (Fake.runtime true) (Fake.ready true) tt tt
             eq_refl eq_refl Fake.stereo_44100
             [x02; x44; xac; x00; x40; x00; x20; x00; x80; xff; x7f]
             (Array2 [[Fake.sample 16384; Fake.sample 8192];
                      [Fake.sample (-32768); Fake.sample 32767]]) 44100
             eq_refl eq_refl (or_intror eq_refl)).
  - apply (multichannel_mixed_to_mono (Fake.runtime true) (Fake.ready true) tt tt
             eq_refl eq_refl Fake.mono_16000 [x01; x80; x3e; x00; x40; x00; x20]
             (Array1 [Fake.sample 16384; Fake.sample 8192]) 16000
             eq_refl eq_refl (or_introl eq_refl)).
Defined.

(** ** The default sample rate *)

(** C10: a [/transcribe/pcm] request without a sample_rate field has
    [sample_rate = 16000]; handling it makes no resampling call in any state,
    and when the model is loaded and the audio decodes, the processor
    receives the decoded samples as they are. *)
Theorem omitted_sample_rate_is_16000 rt (s : State rt) (audio : str) :
  sample_rate (TranscribeBase64Request_init audio None) = 16000
  /\ fst (serve rt (POST_transcribe_pcm audio None) s)
     = fst (transcribe_pcm rt (TranscribeBase64Request_init audio None) s)
  /\ filter is_resample
       (calls_of (transcribe_pcm rt (TranscribeBase64Request_init audio None)) s) = []
  /\ (forall p m x,
         processor s = Some p -> model s = Some m ->
         pcm_audio rt (TranscribeBase64Request_init audio None) = Some x ->
         audio_path (calls_of (transcribe_pcm rt (TranscribeBase64Request_init audio None)) s)
         = [Call_processor x 16000]).
Proof.
  split; [reflexivity|]. split; [|split].
  - unfold serve.
    now destruct (transcribe_pcm rt (TranscribeBase64Request_init audio None) s).
  - rewrite filter_resample_audio_path, transcribe_pcm_path_total.
    destruct (model s); [|reflexivity].
    destruct (processor s); [|reflexivity].
    destruct (pcm_audio rt (TranscribeBase64Request_init audio None)); reflexivity.
  - intros p m x Hp Hm Hx.
    rewrite transcribe_pcm_path_total, Hp, Hm, Hx. reflexivity.
Qed.

Lemma omitted_sample_rate_is_16000_witness :
  audio_path (calls_of (transcribe_pcm (Fake.runtime true)
                          (TranscribeBase64Request_init Fake.four_samples None))
                (Fake.ready true))
  = [Call_processor (Numpy.pcm_to_float [1; 32767; -32768; -1]) 16000].
Proof.
  apply (proj2 (proj2 (proj2 (omitted_sample_rate_is_16000 (Fake.runtime true) (Fake.ready true)
                                Fake.four_samples))) tt tt
           (Numpy.pcm_to_float [1; 32767; -32768; -1]) eq_refl eq_refl eq_refl).
Defined.

(** ** 16-bit PCM to floats *)

Lemma all_from_spec n : forall lo test,
    all_from n lo test = true ->
    forall i, lo <= i < lo + Z.of_nat n -> test i = true.
Proof.
  induction n as [|n IH]; intros lo test H i Hi.
  - simpl in Hi. lia.
  - cbn [all_from] in H. apply andb_prop in H. destruct H as [H0 H1].
    destruct (Z.eq_dec i lo) as [->|Hne]; [exact H0|].
    apply (IH (lo + 1) test H1). lia.
Qed.

(** Every 16-bit value, one by one. *)
Lemma all_int16_ok : all_from (Z.to_nat 65536) (-32768) pcm_item_ok = true.
Proof. vm_compute. reflexivity. Qed.

Lemma pcm_item_to_float_spec i :
  -32768 <= i <= 32767 ->
  is_ratio_pow2 (Numpy.pcm_item_to_float i) i 15
  /\ SFleb f32_minus_one (Numpy.pcm_item_to_float i) = true
  /\ SFleb (Numpy.pcm_item_to_float i) f32_pcm_max = true.
Proof.
  intros Hi.
  assert (H : pcm_item_ok i = true).
  { apply (all_from_spec _ _ _ all_int16_ok). lia. }
  unfold pcm_item_ok in H.
  apply andb_prop in H. destruct H as [H H3].
  apply andb_prop in H. destruct H as [H1 H2].
  split; [|split; assumption].
  unfold is_ratio_pow2. destruct (Numpy.pcm_item_to_float i); try discriminate.
  - now apply Z.eqb_eq.
  - apply andb_prop in H1. destruct H1 as [He Hm].
    split; [now apply Z.leb_le | now apply Z.eqb_eq].
Qed.

(** The two bounds are [-1] and [32767 / 32768]. *)
Lemma f32_bounds_values :
  is_ratio_pow2 f32_minus_one (-1) 0 /\ is_ratio_pow2 f32_pcm_max 32767 15.
Proof. split; (split; [lia | reflexivity]). Qed.

Lemma int16_of_bytes_range order b0 b1 :
  -32768 <= Numpy.int16_of_bytes order b0 b1 <= 32767.
Proof.
  pose proof (Byte.to_N_bounded b0). pose proof (Byte.to_N_bounded b1).
  unfold Numpy.int16_of_bytes.
  destruct order;
    match goal with
    | |- context [if ?u <? 32768 then _ else _] => destruct (Z.ltb_spec u 32768)
    end; lia.
Qed.

(** Induction on buffers, two bytes at a time. *)
Lemma pairs_ind (A : Type) (P : list A -> Prop) :
  P [] -> (forall a, P [a]) -> (forall a b l, P l -> P (a :: b :: l)) ->
  forall l, P l.
Proof.
  intros H0 H1 H2.
  assert (H : forall l, P l /\ forall a, P (a :: l)).
  { induction l as [|b l [IH1 IH2]]; split; auto. }
  intros l. apply H.
Qed.

Lemma items_int16_spec order buffer : forall items,
  Numpy.items_int16 order buffer = Some items ->
  List.length buffer = (2 * List.length items)%nat
  /\ Forall (fun i => -32768 <= i <= 32767) items
  /\ (forall k b0 b1,
         nth_error buffer (2 * k) = Some b0 ->
         nth_error buffer (2 * k + 1) = Some b1 ->
         nth_error items k = Some (Numpy.int16_of_bytes order b0 b1)).
Proof.
  induction buffer as [| b | b0 b1 rest IH] using pairs_ind; intros items H.
  - injection H as <-. repeat split; [constructor|].
    intros [|k] ? ? H; discriminate.
  - discriminate.
  - cbn [Numpy.items_int16] in H.
    destruct (Numpy.items_int16 order rest) as [items'|]; [|discriminate].
    injection H as <-. destruct (IH items' eq_refl) as (Hl & Hr & Hn).
    repeat split.
    + simpl. lia.
    + constructor; [apply int16_of_bytes_range | exact Hr].
    + intros [|k] c0 c1 H0 H1.
      * simpl in H0, H1. injection H0 as <-. injection H1 as <-. reflexivity.
      * replace (2 * S k)%nat with (S (S (2 * k))) in H0 by lia.
        replace (2 * S k + 1)%nat with (S (S (2 * k + 1))) in H1 by lia.
        simpl in H0, H1. simpl. now apply Hn.
Qed.

(** C2: whenever [/transcribe/pcm] puts an array on the audio path, the
    request's audio_data has been base64-decoded to a buffer that is read as
    16-bit signed integers, two bytes each in the machine's byte order; the
    array is made of one float32 per integer [i], which is [i / 32768]
    exactly and lies between [-1.0] and [32767 / 32768]. *)
Theorem pcm_samples_scaled rt (s : State rt) (audio : str) (rate : option Z) a :
  first_audio (calls_of (transcribe_pcm rt (TranscribeBase64Request_init audio rate)) s)
  = Some a ->
  exists audio_bytes audio_int16,
    Base64.b64decode audio = Ok audio_bytes
    /\ Numpy.items_int16 (byteorder rt) audio_bytes = Some audio_int16
    /\ List.length audio_bytes = (2 * List.length audio_int16)%nat
    /\ (forall k b0 b1,
           nth_error audio_bytes (2 * k) = Some b0 ->
           nth_error audio_bytes (2 * k + 1) = Some b1 ->
           nth_error audio_int16 k = Some (Numpy.int16_of_bytes (byteorder rt) b0 b1))
    /\ a = Array1 (map (fun i => F32.div (F32.of_int i) (F32.of_int 32768)) audio_int16)
    /\ Forall (fun i =>
                 -32768 <= i <= 32767
                 /\ is_ratio_pow2 (F32.div (F32.of_int i) (F32.of_int 32768)) i 15
                 /\ SFleb f32_minus_one (F32.div (F32.of_int i) (F32.of_int 32768)) = true
                 /\ SFleb (F32.div (F32.of_int i) (F32.of_int 32768)) f32_pcm_max = true)
         audio_int16.
Proof.
  unfold first_audio. rewrite transcribe_pcm_path_total.
  destruct (model s); [|discriminate].
  destruct (processor s); [|discriminate].
  unfold pcm_audio. cbn [audio_data TranscribeBase64Request_init].
  destruct (Base64.b64decode audio) as [audio_bytes|e]; [|discriminate].
  unfold Numpy.frombuffer_int16.
  destruct (Numpy.items_int16 (byteorder rt) audio_bytes) as [audio_int16|] eqn:Hi;
    [|discriminate].
  intros H.
  destruct (items_int16_spec _ _ _ Hi) as (Hl & Hr & Hn).
  exists audio_bytes, audio_int16. repeat split; try assumption.
  - unfold expected_path, resample_stage in H.
    destruct (sample_rate (TranscribeBase64Request_init audio rate) =? 16000).
    + simpl in H. now injection H as <-.
    + destruct (import_librosa rt); simpl in H; [now injection H as <- | discriminate].
  - eapply Forall_impl; [|exact Hr].
    intros i Hrange. split; [exact Hrange|].
    apply (pcm_item_to_float_spec i Hrange).
Qed.

Lemma pcm_samples_scaled_witness :
  exists audio_int16,
    Numpy.pcm_to_float [1; 32767; -32768; -1]
    = Array1 (map (fun i => F32.div (F32.of_int i) (F32.of_int 32768)) audio_int16)
    /\ Forall (fun i => -32768 <= i <= 32767) audio_int16.
Proof.
  destruct (pcm_samples_scaled (Fake.runtime true) (Fake.ready true) Fake.four_samples None
              (Numpy.pcm_to_float [1; 32767; -32768; -1]) eq_refl)
    as (audio_bytes & audio_int16 & _ & _ & _ & _ & Ha & Hf).
  exists audio_int16. split; [exact Ha|].
  eapply Forall_impl; [|exact Hf]. intros i H. apply H.
Defined.

(** ** What the base64 decoder accepts *)

Lemma is_alphabet_inv c :
  Base64.is_alphabet c = true ->
  (c <? 128)%N = true /\ (c =? Base64.BASE64_PAD)%N = false
  /\ exists v, Base64.table_a2b_base64 c = Some v.
Proof.
  unfold Base64.is_alphabet.
  destruct (Base64.table_a2b_base64 c) as [v|] eqn:E; [intros _|discriminate].
  split; [|split; [|now exists v]].
  - unfold Base64.table_a2b_base64 in E. apply N.ltb_lt.
    repeat match type of E with
           | (if ?b then _ else _) = _ => destruct b eqn:?
           end; try discriminate;
      repeat match goal with
             | H : (_ && _)%bool = true |- _ => apply andb_prop in H; destruct H
             | H : (_ <=? _)%N = true |- _ => apply N.leb_le in H
             | H : (_ =? _)%N = true |- _ => apply N.eqb_eq in H
             end; lia.
  - apply N.eqb_neq. intros ->. vm_compute in E. discriminate.
Qed.

Lemma is_pad_inv c :
  Base64.is_pad c = true -> c = Base64.BASE64_PAD.
Proof. unfold Base64.is_pad. apply N.eqb_eq. Qed.

Lemma loop_alphabet c v rest quad_pos leftchar pads out :
  (c =? Base64.BASE64_PAD)%N = false ->
  Base64.table_a2b_base64 c = Some v ->
  Base64.a2b_base64_loop (c :: rest) quad_pos leftchar pads out
  = (if quad_pos =? 0 then Base64.a2b_base64_loop rest 1 v 0 out
     else if quad_pos =? 1 then
       Base64.a2b_base64_loop rest 2 (N.land v 15) 0
         (Base64.byte_of_N (N.lor (N.shiftl leftchar 2) (N.shiftr v 4)) :: out)
     else if quad_pos =? 2 then
       Base64.a2b_base64_loop rest 3 (N.land v 3) 0
         (Base64.byte_of_N (N.lor (N.shiftl leftchar 4) (N.shiftr v 2)) :: out)
     else
       Base64.a2b_base64_loop rest 0 0 0
         (Base64.byte_of_N (N.lor (N.shiftl leftchar 6) v) :: out))%N.
Proof. intros Hp Hv. cbn [Base64.a2b_base64_loop]. now rewrite Hp, Hv. Qed.

(** Every well-formed string is decoded. *)
Lemma well_formed_loop n : forall s out,
    (List.length s <= n)%nat ->
    Base64.well_formed s = true ->
    exists b, Base64.a2b_base64_loop s 0 0 0 out = Ok b.
Proof.
  induction n as [|n IH]; intros s out Hn Hw.
  - destruct s; [now exists (rev out) | simpl in Hn; lia].
  - destruct s as [|a [|b [|c [|d s']]]]; try discriminate.
    + now exists (rev out).
    + destruct s' as [|e s''].
      * cbn [Base64.well_formed] in Hw.
        apply andb_prop in Hw. destruct Hw as [Hab Hcd].
        apply andb_prop in Hab. destruct Hab as [Ha Hb].
        destruct (is_alphabet_inv a Ha) as (_ & Pa & va & Ta).
        destruct (is_alphabet_inv b Hb) as (_ & Pb & vb & Tb).
        rewrite (loop_alphabet a va _ _ _ _ _ Pa Ta). cbn [N.eqb].
        rewrite (loop_alphabet b vb _ _ _ _ _ Pb Tb). cbn [N.eqb Pos.eqb].
        apply orb_prop in Hcd. destruct Hcd as [Hcd | Hcd];
          apply andb_prop in Hcd; destruct Hcd as [Hc Hd].
        -- destruct (is_alphabet_inv c Hc) as (_ & Pc & vc & Tc).
           rewrite (loop_alphabet c vc _ _ _ _ _ Pc Tc). cbn [N.eqb Pos.eqb].
           apply orb_prop in Hd. destruct Hd as [Hd | Hd].
           ++ destruct (is_alphabet_inv d Hd) as (_ & Pd & vd & Td).
              rewrite (loop_alphabet d vd _ _ _ _ _ Pd Td). cbn [N.eqb Pos.eqb].
              eexists. reflexivity.
           ++ rewrite (is_pad_inv d Hd). eexists. reflexivity.
        -- rewrite (is_pad_inv c Hc), (is_pad_inv d Hd). eexists. reflexivity.
      * assert (Hw' : Base64.is_alphabet a && Base64.is_alphabet b
                      && Base64.is_alphabet c && Base64.is_alphabet d
                      && Base64.well_formed (e :: s'') = true) by exact Hw.
        apply andb_prop in Hw'. destruct Hw' as [Hw' Hrest].
        apply andb_prop in Hw'. destruct Hw' as [Hw' Hd].
        apply andb_prop in Hw'. destruct Hw' as [Hw' Hc].
        apply andb_prop in Hw'. destruct Hw' as [Ha Hb].
        destruct (is_alphabet_inv a Ha) as (_ & Pa & va & Ta).
        destruct (is_alphabet_inv b Hb) as (_ & Pb & vb & Tb).
        destruct (is_alphabet_inv c Hc) as (_ & Pc & vc & Tc).
        destruct (is_alphabet_inv d Hd) as (_ & Pd & vd & Td).
        rewrite (loop_alphabet a va _ _ _ _ _ Pa Ta). cbn [N.eqb].
        rewrite (loop_alphabet b vb _ _ _ _ _ Pb Tb). cbn [N.eqb Pos.eqb].
        rewrite (loop_alphabet c vc _ _ _ _ _ Pc Tc). cbn [N.eqb Pos.eqb].
        rewrite (loop_alphabet d vd _ _ _ _ _ Pd Td). cbn [N.eqb Pos.eqb].
        apply IH; [simpl in Hn |- *; lia | exact Hrest].
Qed.

Lemma well_formed_ascii n : forall s,
    (List.length s <= n)%nat ->
    Base64.well_formed s = true -> Base64.encode_ascii s = Some s.
Proof.
  assert (Hc : forall c, Base64.is_alphabet c || Base64.is_pad c = true -> (c <? 128)%N = true).
  { intros c H. apply orb_prop in H. destruct H as [H|H].
    - apply (is_alphabet_inv c H).
    - now rewrite (is_pad_inv c H). }
  assert (Hq : forall a b c d s,
             (a <? 128)%N = true -> (b <? 128)%N = true -> (c <? 128)%N = true ->
             (d <? 128)%N = true -> Base64.encode_ascii s = Some s ->
             Base64.encode_ascii (a :: b :: c :: d :: s) = Some (a :: b :: c :: d :: s)).
  { intros a b c d s Ha Hb Hc' Hd Hs. cbn [Base64.encode_ascii].
    now rewrite Ha, Hb, Hc', Hd, Hs. }
  induction n as [|n IH]; intros s Hn Hw.
  - destruct s; [reflexivity | simpl in Hn; lia].
  - destruct s as [|a [|b [|c [|d s']]]]; try discriminate; [reflexivity|].
    destruct s' as [|e s''].
    + cbn [Base64.well_formed] in Hw.
      apply andb_prop in Hw. destruct Hw as [Hab Hcd].
      apply andb_prop in Hab. destruct Hab as [Ha Hb].
      apply Hq; [apply Hc; now rewrite Ha | apply Hc; now rewrite Hb | | | reflexivity].
      * apply Hc. apply orb_prop in Hcd. destruct Hcd as [H|H];
          apply andb_prop in H; destruct H as [H _]; rewrite H;
          [reflexivity | apply orb_true_r].
      * apply Hc. apply orb_prop in Hcd. destruct Hcd as [H|H];
          apply andb_prop in H; destruct H as [_ H];
          [exact H | rewrite H; apply orb_true_r].
    + assert (Hw' : Base64.is_alphabet a && Base64.is_alphabet b
                    && Base64.is_alphabet c && Base64.is_alphabet d
                    && Base64.well_formed (e :: s'') = true) by exact Hw.
      apply andb_prop in Hw'. destruct Hw' as [Hw' Hrest].
      apply andb_prop in Hw'. destruct Hw' as [Hw' Hd].
      apply andb_prop in Hw'. destruct Hw' as [Hw' Hc'].
      apply andb_prop in Hw'. destruct Hw' as [Ha Hb].
      apply Hq; try (apply Hc; match goal with H : _ = true |- _ => now rewrite H end).
      apply IH; [simpl in Hn |- *; lia | exact Hrest].
Qed.

Lemma well_formed_accepted s :
  Base64.well_formed s = true -> exists b, Base64.b64decode s = Ok b.
Proof.
  intros H. unfold Base64.b64decode, Base64.a2b_base64.
  rewrite (well_formed_ascii (List.length s) s (le_n _) H).
  now apply (well_formed_loop (List.length s)).
Qed.

(** ** Malformed input *)

(** A string of eight alphabet characters with a ['#'] in the middle is not
    base64, yet [b64decode] skips the ['#'] and returns six bytes. *)
Lemma b64decode_skips_other_characters :
  Base64.well_formed (lit "AAAA#AAAA") = false
  /\ Base64.b64decode (lit "AAAA#AAAA") = Ok [x00; x00; x00; x00; x00; x00].
Proof. split; reflexivity. Qed.

(** C5 does not hold as stated: the request whose audio_data is
    ["AAAA#AAAA"], which is not well-formed base64, is answered with status
    200 when the model is loaded and the inference succeeds on the six zero
    bytes it decodes to (and with 503, not 500, while the model is not
    loaded). *)
Lemma malformed_base64_not_always_500 :
  ~ (forall rt (s : State rt) audio rate,
        Base64.well_formed audio = false ->
        status_code (snd (serve rt (POST_transcribe_pcm audio rate) s)) = 500).
Proof.
  intros H.
  specialize (H (Fake.runtime true) (Fake.ready true) (lit "AAAA#AAAA") None eq_refl).
  vm_compute in H. discriminate.
Qed.

Lemma malformed_base64_unloaded_503 :
  Base64.well_formed (lit "AAAA#AAA") = false
  /\ status_code (snd (serve (Fake.runtime true) (POST_transcribe_pcm (lit "AAAA#AAA") None)
                         (initial (Fake.runtime true) true))) = 503.
Proof. split; reflexivity. Qed.

(** A decoded buffer with an odd number of bytes is no sequence of 16-bit
    samples: status 500. *)
Lemma odd_buffer_gives_500 rt (s : State rt) p m audio rate audio_bytes e :
  processor s = Some p -> model s = Some m ->
  Base64.b64decode audio = Ok audio_bytes ->
  Numpy.frombuffer_int16 (byteorder rt) audio_bytes = Raise e ->
  snd (serve rt (POST_transcribe_pcm audio rate) s)
  = {| status_code := 500; content := JSON [(lit "detail", JString (str_of_exn e))] |}.
Proof.
  intros Hp Hm Hb Hf.
  apply (body_raise_pcm rt s p m audio rate
           [Call_b64decode audio; Call_frombuffer audio_bytes] e Hp Hm).
  now apply (transcribe_pcm_frombuffer_raises rt s p m
               (TranscribeBase64Request_init audio rate) audio_bytes e).
Qed.

(** C5, amended: with the model loaded, every [/transcribe/pcm] request whose
    audio_data [base64.b64decode] rejects, and every [/transcribe] upload
    whose bytes [sf.read] rejects, is answered with status 500 and the
    exception's text as detail.  Only strings that are not well-formed
    base64 are rejected, but not all of them: characters outside the
    alphabet are skipped. *)
Theorem rejected_input_gives_500 rt (s : State rt) p m :
  processor s = Some p -> model s = Some m ->
  (forall audio rate e,
      Base64.b64decode audio = Raise e ->
      Base64.well_formed audio = false
      /\ snd (serve rt (POST_transcribe_pcm audio rate) s)
         = {| status_code := 500; content := JSON [(lit "detail", JString (str_of_exn e))] |})
  /\ (forall file audio_bytes e,
         read file = Ok audio_bytes ->
         sf_read rt audio_bytes = Raise e ->
         snd (serve rt (POST_transcribe file) s)
         = {| status_code := 500; content := JSON [(lit "detail", JString (str_of_exn e))] |}).
Proof.
  intros Hp Hm. split.
  - intros audio rate e Hb. split.
    + destruct (Base64.well_formed audio) eqn:Hw; [|reflexivity].
      destruct (well_formed_accepted audio Hw) as (b & Hd). congruence.
    + apply (body_raise_pcm rt s p m audio rate [Call_b64decode audio] e Hp Hm).
      now apply (transcribe_pcm_b64decode_raises rt s p m
                   (TranscribeBase64Request_init audio rate) e).
  - intros file audio_bytes e Hb Hf.
    apply (body_raise_audio rt s p m file [Call_file_read; Call_sf_read audio_bytes] e Hp Hm).
    now apply (transcribe_audio_sf_read_raises rt s p m file audio_bytes e).
Qed.

Lemma rejected_input_gives_500_witness :
  (snd (serve (Fake.runtime true) (POST_transcribe_pcm (lit "AAAA#AAA") None) (Fake.ready true))
   = {| status_code := 500; content := JSON [(lit "detail", JString (lit "Incorrect padding"))] |})
  /\ (snd (serve (Fake.runtime true) (POST_transcribe Fake.no_audio) (Fake.ready true))
      = {| status_code := 500;
           content := JSON [(lit "detail", JString (lit "Format not recognised."))] |}).
Proof.
  pose proof (rejected_input_gives_500 (Fake.runtime true) (Fake.ready true) tt tt
                eq_refl eq_refl) as [Ha Hb].
  split.
  - apply (proj2 (Ha (lit "AAAA#AAA") None (Base64.Error (lit "Incorrect padding")) eq_refl)).
  - apply (Hb Fake.no_audio [x07] Fake.not_recognised eq_refl eq_refl).
Defined.

(** The same in every runtime: once the model is loaded, the request is
    answered with status 200 whenever the four inference calls succeed on
    the three zero samples. *)
Lemma malformed_base64_accepted rt (s : State rt) p m features features' ids t ts :
  processor s = Some p -> model s = Some m ->
  processor_call rt p (Numpy.pcm_to_float [0; 0; 0]) 16000 = Ok features ->
  tensor_to rt features (DEVICE rt) (TORCH_DTYPE rt) = Ok features' ->
  generate rt m features' = Ok ids ->
  batch_decode rt p ids = Ok (t :: ts) ->
  snd (serve rt (POST_transcribe_pcm (lit "AAAA#AAAA") None) s)
  = {| status_code := 200;
       content := JSON [(lit "text", JString (strip t)); (lit "language", JString (lit "is"))] |}.
Proof.
  intros Hp Hm H1 H2 H3 H4.
  rewrite serve_transcribe_pcm. unfold outcome.
  rewrite (transcribe_pcm_loaded rt s p m _ Hp Hm).
  unfold try_except, transcribe_pcm_body, infer, bind, call, ret.
  cbn [audio_data sample_rate TranscribeBase64Request_init].
  change (Base64.b64decode (lit "AAAA#AAAA")) with (Ok [x00; x00; x00; x00; x00; x00] : result bytes).
  cbv iota beta.
  assert (Hf : Numpy.frombuffer_int16 (byteorder rt) [x00; x00; x00; x00; x00; x00]
               = Ok [0; 0; 0]) by (destruct (byteorder rt); reflexivity).
  rewrite Hf. cbn [Z.eqb Pos.eqb negb]. cbv iota beta.
  rewrite H1. cbv iota beta. rewrite H2. cbv iota beta.
  rewrite H3. cbv iota beta. rewrite H4. reflexivity.
Qed.

(** * Further properties of the service *)

(** ** Outcomes do not depend on the calls made before *)

Section Uniform.

Variable rt : Runtime.
Implicit Types s : State rt.

Lemma agree_refl s : agree s s.
Proof. repeat split. Qed.

Lemma agree_add_calls s s' l l' : agree s s' -> agree (add_calls s l) (add_calls s' l').
Proof. intros H. exact H. Qed.

Lemma uniform_ret A (a : A) : uniform (rt := rt) (ret a).
Proof. intros s s' _. exists [], (Ok a). split; apply steps_ret. Qed.

Lemma uniform_raise A (e : exn) : uniform (rt := rt) (raise (A := A) e).
Proof. intros s s' _. exists [], (Raise e). split; apply steps_raise. Qed.

Lemma uniform_lift A (r : result A) : uniform (rt := rt) (lift r).
Proof. intros s s' _. exists [], r. split; apply steps_lift. Qed.

Lemma uniform_call A (c : Call) (r : result A) : uniform (rt := rt) (call c r).
Proof. intros s s' _. exists [c], r. split; apply steps_call. Qed.

Lemma uniform_get A (g : State rt -> A) :
  (forall s s', agree s s' -> g s = g s') -> uniform (get g).
Proof.
  intros Hg s s' H. exists [], (Ok (g s)). split; [apply steps_get|].
  rewrite (Hg s s' H). apply steps_get.
Qed.

Lemma uniform_bind A B (m : M rt A) (k : A -> M rt B) :
  uniform m -> (forall a, uniform (k a)) -> uniform (bind m k).
Proof.
  intros Hm Hk s s' H. destruct (Hm s s' H) as (l1 & [a|e] & H1 & H1').
  - destruct (Hk a (add_calls s l1) (add_calls s' l1) (agree_add_calls s s' l1 l1 H))
      as (l2 & r & H2 & H2').
    exists (l1 ++ l2), r. split; eapply steps_bind; eauto.
  - exists l1, (Raise e). split; now apply steps_bind_raise.
Qed.

Lemma uniform_try_except A (body : M rt A) handler :
  uniform body -> (forall e, uniform (handler e)) -> uniform (try_except body handler).
Proof.
  intros Hb Hh s s' H. destruct (Hb s s' H) as (l1 & [a|e] & H1 & H1').
  - exists l1, (Ok a). split; now apply steps_try_ok.
  - destruct (Hh e (add_calls s l1) (add_calls s' l1) (agree_add_calls s s' l1 l1 H))
      as (l2 & r & H2 & H2').
    exists (l1 ++ l2), r. split; eapply steps_try_raise; eauto.
Qed.

End Uniform.

Ltac uniform :=
  repeat first
    [ progress intros
    | apply uniform_bind | apply uniform_try_except
    | apply uniform_ret | apply uniform_raise
    | apply uniform_lift | apply uniform_call
    | match goal with
      | |- uniform (if ?b then _ else _) => destruct b
      | |- uniform (match ?x with _ => _ end) => destruct x
      | |- uniform (let _ := ?x in _) => destruct x
      end ].

Section UniformHandlers.

Variable rt : Runtime.
Implicit Types s : State rt.

Lemma uniform_get_model : uniform (rt := rt) (get (fun s => model s)).
Proof. apply uniform_get. intros s s' H. apply H. Qed.

Lemma uniform_get_processor : uniform (rt := rt) (get (fun s => processor s)).
Proof. apply uniform_get. intros s s' H. apply H. Qed.

Lemma uniform_get_cuda : uniform (rt := rt) (get (fun s => cuda_is_available s)).
Proof. apply uniform_get. intros s s' H. apply H. Qed.

Lemma uniform_infer p m audio : uniform (infer (rt := rt) p m audio).
Proof. unfold infer; uniform. Qed.

Lemma uniform_health_check : uniform (health_check rt).
Proof.
  unfold health_check. apply uniform_bind; [apply uniform_get_cuda | intros; apply uniform_ret].
Qed.

Lemma uniform_transcribe_audio file : uniform (transcribe_audio rt file).
Proof.
  unfold transcribe_audio.
  apply uniform_bind; [apply uniform_get_model | intros m].
  apply uniform_bind; [apply uniform_get_processor | intros p].
  unfold transcribe_audio_body, internal_error, model_not_loaded.
  uniform; apply uniform_infer.
Qed.

Lemma uniform_transcribe_pcm request : uniform (transcribe_pcm rt request).
Proof.
  unfold transcribe_pcm.
  apply uniform_bind; [apply uniform_get_model | intros m].
  apply uniform_bind; [apply uniform_get_processor | intros p].
  unfold transcribe_pcm_body, internal_error, model_not_loaded.
  uniform; apply uniform_infer.
Qed.

(** The response to a request is the same from states that agree. *)
Lemma serve_agree req s s' :
  agree s s' -> snd (serve rt req s) = snd (serve rt req s').
Proof.
  intros H. destruct req as [|file|audio rate]; unfold serve.
  - destruct (uniform_health_check s s' H) as (l & r & H1 & H2).
    unfold steps in H1, H2. now rewrite H1, H2.
  - destruct (uniform_transcribe_audio file s s' H) as (l & r & H1 & H2).
    unfold steps in H1, H2. now rewrite H1, H2.
  - destruct (uniform_transcribe_pcm (TranscribeBase64Request_init audio rate) s s' H)
      as (l & r & H1 & H2).
    unfold steps in H1, H2. now rewrite H1, H2.
Qed.

End UniformHandlers.

(** X1: the service keeps nothing from one request to the next: the
    response to a request is the same after any sequence of earlier
    requests as it is without them. *)
Theorem response_independent_of_history rt (reqs : list Request) (req : Request)
    (s : State rt) :
  snd (serve rt req (fst (serve_all rt reqs s))) = snd (serve rt req s).
Proof.
  destruct (serve_all_frame rt reqs s) as (l & resps & H). rewrite H. simpl.
  symmetry. apply serve_agree. repeat split.
Qed.

(** ** Status codes *)

Lemma loaded_status rt (s : State rt) p m req :
  processor s = Some p -> model s = Some m ->
  is_transcription req = true ->
  status_code (snd (serve rt req s)) = 200 \/ status_code (snd (serve rt req s)) = 500.
Proof.
  intros Hp Hm Hreq. destruct req as [|file|audio rate]; [discriminate| |].
  - rewrite serve_transcribe. unfold outcome.
    rewrite (transcribe_audio_loaded rt s p m file Hp Hm).
    fold (outcome (try_except (transcribe_audio_body p m file) internal_error) s).
    rewrite outcome_try_except.
    destruct (outcome (transcribe_audio_body p m file) s); [now left | now right].
  - rewrite serve_transcribe_pcm. unfold outcome.
    rewrite (transcribe_pcm_loaded rt s p m _ Hp Hm).
    fold (outcome (try_except
                     (transcribe_pcm_body p m (TranscribeBase64Request_init audio rate))
                     internal_error) s).
    rewrite outcome_try_except.
    destruct (outcome (transcribe_pcm_body p m (TranscribeBase64Request_init audio rate)) s);
      [now left | now right].
Qed.

Lemma unloaded_status rt (s : State rt) req :
  model s = None \/ processor s = None ->
  is_transcription req = true ->
  status_code (snd (serve rt req s)) = 503.
Proof.
  intros H Hreq. destruct req as [|file|audio rate]; [discriminate| |]; unfold serve.
  - now rewrite (transcribe_audio_unloaded rt s file H).
  - now rewrite (transcribe_pcm_unloaded rt s (TranscribeBase64Request_init audio rate) H).
Qed.





(** ** Startup and the requests after it *)

Lemma globals_after_requests rt (reqs : list Request) (s : State rt) :
  agree (fst (serve_all rt reqs s)) s.
Proof.
  destruct (serve_all_frame rt reqs s) as (l & resps & H). rewrite H. repeat split.
Qed.

(** X4: once [load_model] has returned, no transcription request is
    answered with 503, whatever requests were served in between. *)
Theorem no_503_after_startup rt (s : State rt) (reqs : list Request) (req : Request) :
  outcome (load_model rt) s = Ok tt ->
  is_transcription req = true ->
  status_code (snd (serve rt req (fst (serve_all rt reqs (fst (load_model rt s)))))) <> 503.
Proof.
  intros Hl Hreq.
  destruct (load_model_loads rt s Hl) as [Hp Hm].
  destruct (globals_after_requests rt reqs (fst (load_model rt s))) as (Ep & Em & _).
  rewrite <- Ep in Hp. rewrite <- Em in Hm.
  destruct (processor (fst (serve_all rt reqs (fst (load_model rt s))))) as [p|] eqn:Hp';
    [|contradiction].
  destruct (model (fst (serve_all rt reqs (fst (load_model rt s))))) as [m|] eqn:Hm';
    [|contradiction].
  destruct (loaded_status rt _ p m req Hp' Hm' Hreq) as [E|E]; rewrite E; discriminate.
Qed.

Lemma no_503_after_startup_witness :
  status_code (snd (serve (Fake.runtime true) (POST_transcribe Fake.no_audio)
                      (fst (serve_all (Fake.runtime true)
                              [GET_health; POST_transcribe_pcm Fake.four_samples None]
                              (fst (load_model (Fake.runtime true)
                                      (initial (Fake.runtime true) true)))))))
  <> 503.
Proof.
  apply (no_503_after_startup (Fake.runtime true) (initial (Fake.runtime true) true)
           [GET_health; POST_transcribe_pcm Fake.four_samples None]
           (POST_transcribe Fake.no_audio) eq_refl eq_refl).
Defined.

(** When [load_model] raises, [model] has not been assigned. *)
Lemma load_model_raises rt (s : State rt) e :
  outcome (load_model rt) s = Raise e ->
  model (fst (load_model rt s)) = model s
  /\ (WhisperProcessor_from_pretrained rt MODEL_NAME = Raise e
      /\ processor (fst (load_model rt s)) = processor s
      \/ exists p,
          WhisperProcessor_from_pretrained rt MODEL_NAME = Ok p
          /\ processor (fst (load_model rt s)) = Some p).
Proof.
  unfold outcome, load_model, bind, call, set_processor, set_model; simpl.
  destruct (WhisperProcessor_from_pretrained rt MODEL_NAME) as [p|e0]; simpl.
  - destruct (WhisperForConditionalGeneration_from_pretrained rt MODEL_NAME (TORCH_DTYPE rt))
      as [m0|e1]; simpl.
    + destruct (module_to rt m0 (DEVICE rt)) as [m1|e2]; simpl; [discriminate|].
      intros _. split; [reflexivity|]. right. now exists p.
    + intros _. split; [reflexivity|]. right. now exists p.
  - intros H. injection H as <-. split; [reflexivity|]. now left.
Qed.

(** X5: if [load_model] raises, whichever of its three library calls
    failed, [model] keeps the value it had; started from the state of the
    imported module, the service then answers every transcription request
    with 503, also when the processor had already been loaded. *)
Theorem failed_startup_gives_503 rt (cuda : bool) e (req : Request) :
  outcome (load_model rt) (initial rt cuda) = Raise e ->
  is_transcription req = true ->
  model (fst (load_model rt (initial rt cuda))) = None
  /\ status_code (snd (serve rt req (fst (load_model rt (initial rt cuda))))) = 503.
Proof.
  intros Hl Hreq.
  destruct (load_model_raises rt (initial rt cuda) e Hl) as [Hm _].
  split; [exact Hm|].
  apply unloaded_status; [now left | exact Hreq].
Qed.

Lemma failed_startup_gives_503_witness :
  model (fst (load_model runtime_without_model (initial runtime_without_model true))) = None
  /\ status_code
       (snd (serve runtime_without_model (POST_transcribe_pcm Fake.four_samples None)
               (fst (load_model runtime_without_model (initial runtime_without_model true)))))
     = 503.
Proof.
  apply (failed_startup_gives_503 runtime_without_model true out_of_memory
           (POST_transcribe_pcm Fake.four_samples None) eq_refl eq_refl).
Defined.

(** ** Buffers that are no sequence of 16-bit samples *)

Lemma items_int16_none_iff_odd order buffer :
  Numpy.items_int16 order buffer = None <-> Nat.odd (List.length buffer) = true.
Proof.
  induction buffer as [| b | b0 b1 rest IH] using pairs_ind.
  - split; discriminate.
  - split; reflexivity.
  - cbn [Numpy.items_int16].
    change (Nat.odd (List.length (b0 :: b1 :: rest))) with (Nat.odd (List.length rest)).
    rewrite <- IH.
    destruct (Numpy.items_int16 order rest); simpl; split; congruence.
Qed.

(** X6: with the model loaded, a [/transcribe/pcm] request whose audio_data
    decodes to an odd number of bytes is answered with status 500 and numpy's
    message as detail; the audio never reaches the resampler or the
    processor. *)
Theorem odd_length_gives_500 rt (s : State rt) p m (audio : str) (rate : option Z)
    (audio_bytes : bytes) :
  processor s = Some p -> model s = Some m ->
  Base64.b64decode audio = Ok audio_bytes ->
  Nat.odd (List.length audio_bytes) = true ->
  snd (serve rt (POST_transcribe_pcm audio rate) s)
  = {| status_code := 500;
       content := JSON [(lit "detail",
                         JString (lit "buffer size must be a multiple of element size"))] |}
  /\ audio_path (calls_of (transcribe_pcm rt (TranscribeBase64Request_init audio rate)) s) = [].
Proof.
  intros Hp Hm Hb Hodd.
  assert (Hf : Numpy.frombuffer_int16 (byteorder rt) audio_bytes
               = Raise (Exception "ValueError"
                          (lit "buffer size must be a multiple of element size"))).
  { unfold Numpy.frombuffer_int16.
    now rewrite (proj2 (items_int16_none_iff_odd (byteorder rt) audio_bytes) Hodd). }
  pose proof (transcribe_pcm_frombuffer_raises rt s p m
                (TranscribeBase64Request_init audio rate) audio_bytes _ Hb Hf) as H.
  destruct (body_raise_pcm rt s p m audio rate _ _ Hp Hm H) as [H1 H2].
  split; [exact H1|]. cbn [audio_data TranscribeBase64Request_init] in H2.
  rewrite H2. reflexivity.
Qed.

Lemma odd_length_gives_500_witness :
  snd (serve (Fake.runtime true) (POST_transcribe_pcm (lit "AAAA") None) (Fake.ready true))
  = {| status_code := 500;
       content := JSON [(lit "detail",
                         JString (lit "buffer size must be a multiple of element size"))] |}
  /\ audio_path (calls_of (transcribe_pcm (Fake.runtime true)
                             (TranscribeBase64Request_init (lit "AAAA") None))
                   (Fake.ready true)) = [].
Proof.
  apply (odd_length_gives_500 (Fake.runtime true) (Fake.ready true) tt tt (lit "AAAA") None
           [x00; x00; x00] eq_refl eq_refl eq_refl eq_refl).
Defined.

(** ** The conversion of a PCM buffer loses nothing *)

Lemma is_ratio_pow2_unique f i j k :
  is_ratio_pow2 f i k -> is_ratio_pow2 f j k -> i = j.
Proof.
  unfold is_ratio_pow2. destruct f as [sg| | |sg mant e]; try contradiction.
  - congruence.
  - intros [He Hi] [_ Hj]. rewrite Hi in Hj.
    apply Z.mul_reg_r in Hj; [exact Hj|].
    apply Z.pow_nonzero; lia.
Qed.

Lemma pcm_item_to_float_injective i j :
  -32768 <= i <= 32767 -> -32768 <= j <= 32767 ->
  Numpy.pcm_item_to_float i = Numpy.pcm_item_to_float j -> i = j.
Proof.
  intros Hi Hj E.
  destruct (pcm_item_to_float_spec i Hi) as [Ri _].
  destruct (pcm_item_to_float_spec j Hj) as [Rj _].
  rewrite E in Ri. exact (is_ratio_pow2_unique _ i j 15 Ri Rj).
Qed.

Lemma to_N_injective (a b : byte) : Byte.to_N a = Byte.to_N b -> a = b.
Proof.
  intros H. pose proof (Byte.of_to_N a) as Ha. rewrite H, Byte.of_to_N in Ha.
  now injection Ha.
Qed.

Lemma int16_of_bytes_injective order a0 a1 b0 b1 :
  Numpy.int16_of_bytes order a0 a1 = Numpy.int16_of_bytes order b0 b1 ->
  a0 = b0 /\ a1 = b1.
Proof.
  pose proof (Byte.to_N_bounded a0). pose proof (Byte.to_N_bounded a1).
  pose proof (Byte.to_N_bounded b0). pose proof (Byte.to_N_bounded b1).
  unfold Numpy.int16_of_bytes. intros E.
  assert (Byte.to_N a0 = Byte.to_N b0 /\ Byte.to_N a1 = Byte.to_N b1) as [E0 E1].
  { destruct order;
      repeat match type of E with
             | context [if ?u <? 32768 then _ else _] => destruct (Z.ltb_spec u 32768)
             end; lia. }
  split; now apply to_N_injective.
Qed.

(** X7: reading a buffer as 16-bit samples and converting them to floats is
    one-to-one: two buffers that give the same array of floats are the same
    buffer. *)
Theorem pcm_conversion_injective (order : ByteOrder) (buffer buffer' : bytes)
    (items items' : list Z) :
  Numpy.items_int16 order buffer = Some items ->
  Numpy.items_int16 order buffer' = Some items' ->
  Numpy.pcm_to_float items = Numpy.pcm_to_float items' ->
  buffer = buffer'.
Proof.
  revert buffer' items items'.
  induction buffer as [| b | b0 b1 rest IH] using pairs_ind;
    intros buffer' items items' H H' E.
  - injection H as <-. unfold Numpy.pcm_to_float in E. simpl in E.
    destruct items' as [|i' items']; [|discriminate].
    destruct buffer' as [|c0 [|c1 rest']]; [reflexivity | discriminate |].
    cbn [Numpy.items_int16] in H'.
    destruct (Numpy.items_int16 order rest'); discriminate.
  - discriminate.
  - cbn [Numpy.items_int16] in H.
    destruct (Numpy.items_int16 order rest) as [tl|] eqn:Hrest; [|discriminate].
    injection H as <-.
    unfold Numpy.pcm_to_float in E. simpl in E.
    destruct items' as [|i' tl']; [discriminate|].
    simpl in E. injection E as E0 Etl.
    destruct buffer' as [|c0 [|c1 rest']]; [discriminate | discriminate |].
    cbn [Numpy.items_int16] in H'.
    destruct (Numpy.items_int16 order rest') as [tl''|] eqn:Hrest'; [|discriminate].
    injection H' as <- <-.
    apply pcm_item_to_float_injective in E0;
      [|apply int16_of_bytes_range|apply int16_of_bytes_range].
    destruct (int16_of_bytes_injective order b0 b1 c0 c1 E0) as [-> ->].
    f_equal. f_equal.
    apply (IH rest' tl tl'' eq_refl Hrest').
    unfold Numpy.pcm_to_float. now rewrite Etl.
Qed.

Lemma pcm_conversion_injective_witness :
  Fake.four_samples_bytes = [x01; x00; xff; x7f; x00; x80; xff; xff].
Proof.
  apply (pcm_conversion_injective little Fake.four_samples_bytes
           [x01; x00; xff; x7f; x00; x80; xff; xff]
           [1; 32767; -32768; -1] [1; 32767; -32768; -1] eq_refl eq_refl eq_refl).
Defined.

(** ** The text of a response *)

Lemma lstrip_split (s : str) :
  exists l, s = l ++ lstrip s /\ forallb isspace l = true.
Proof.
  induction s as [|c s (l & E & Hl)]; [now exists []|].
  simpl. destruct (isspace c) eqn:Hc.
  - exists (c :: l). simpl. rewrite Hc. split; [now f_equal | exact Hl].
  - now exists [].
Qed.

Lemma lstrip_hd (s : str) :
  match lstrip s with
  | c :: _ => isspace c = false
  | [] => True
  end.
Proof.
  induction s as [|c s IH]; [exact I|].
  simpl. destruct (isspace c) eqn:Hc; [exact IH | exact Hc].
Qed.

Lemma strip_trimmed (s : str) : trimmed (strip s).
Proof.
  unfold trimmed, strip. split.
  - destruct (lstrip_split (rev (lstrip s))) as (l & E & _).
    apply (f_equal (@rev N)) in E. rewrite rev_involutive, rev_app_distr in E.
    pose proof (lstrip_hd s) as H.
    destruct (rev (lstrip (rev (lstrip s)))) as [|c t]; [exact I|].
    rewrite E in H. exact H.
  - rewrite rev_involutive. apply lstrip_hd.
Qed.

(** What [strip] removes is whitespace, at the two ends. *)
Lemma strip_middle (s : str) :
  exists l r, s = l ++ strip s ++ r /\ forallb isspace l = true /\ forallb isspace r = true.
Proof.
  destruct (lstrip_split s) as (l & E & Hl).
  destruct (lstrip_split (rev (lstrip s))) as (r & E' & Hr).
  apply (f_equal (@rev N)) in E'. rewrite rev_involutive, rev_app_distr in E'.
  exists l, (rev r). unfold strip. rewrite <- E'. split; [exact E|]. split; [exact Hl|].
  rewrite forallb_forall in *. intros c Hc. apply Hr. now apply in_rev.
Qed.

Section Texts.

Variable rt : Runtime.
Implicit Types s : State rt.

Lemma ensures_bind_call A B (c : Call) (r : result A) (k : A -> M rt B) (P : B -> Prop) :
  (forall a, r = Ok a -> ensures (k a) P) -> ensures (bind (call c r) k) P.
Proof.
  intros H s. unfold outcome, bind, call.
  destruct r as [a|e]; [|exact I]. apply (H a eq_refl).
Qed.

Lemma ensures_infer_decoded p m audio :
  ensures (infer (rt := rt) p m audio) (decoded_response rt p).
Proof.
  unfold infer. do 3 (apply ensures_bind; intros).
  apply ensures_bind_call. intros decoded Hd.
  destruct decoded as [|transcription others]; [apply ensures_raise|].
  apply ensures_ret. now exists a1, transcription, others.
Qed.

Lemma ensures_transcribe_audio_body_decoded p m file :
  ensures (transcribe_audio_body (rt := rt) p m file) (decoded_response rt p).
Proof.
  unfold transcribe_audio_body. do 2 (apply ensures_bind; intros).
  destruct a0. do 2 (apply ensures_bind; intros). apply ensures_infer_decoded.
Qed.

Lemma ensures_transcribe_pcm_body_decoded p m request :
  ensures (transcribe_pcm_body (rt := rt) p m request) (decoded_response rt p).
Proof.
  unfold transcribe_pcm_body. do 4 (apply ensures_bind; intros).
  apply ensures_infer_decoded.
Qed.

(** A response with status 200 comes from the decoder. *)
Lemma ok_response_decoded s req :
  is_transcription req = true ->
  status_code (snd (serve rt req s)) = 200 ->
  exists p r,
    processor s = Some p /\ decoded_response rt p r
    /\ content (snd (serve rt req s)) = JSON (json_of_TranscriptionResponse r).
Proof.
  intros Hreq Hs.
  destruct (model s) as [m|] eqn:Hm;
    [|rewrite (unloaded_status rt s req (or_introl Hm) Hreq) in Hs; discriminate].
  destruct (processor s) as [p|] eqn:Hp;
    [|rewrite (unloaded_status rt s req (or_intror Hp) Hreq) in Hs; discriminate].
  exists p.
  destruct req as [|file|audio rate]; [discriminate| |].
  - rewrite serve_transcribe in *. unfold outcome in *.
    rewrite (transcribe_audio_loaded rt s p m file Hp Hm) in *.
    fold (outcome (try_except (transcribe_audio_body p m file) internal_error) s) in *.
    rewrite outcome_try_except in *.
    pose proof (ensures_transcribe_audio_body_decoded p m file s) as H.
    destruct (outcome (transcribe_audio_body p m file) s) as [r|e]; [|discriminate].
    now exists r.
  - rewrite serve_transcribe_pcm in *. unfold outcome in *.
    rewrite (transcribe_pcm_loaded rt s p m _ Hp Hm) in *.
    fold (outcome (try_except
                     (transcribe_pcm_body p m (TranscribeBase64Request_init audio rate))
                     internal_error) s) in *.
    rewrite outcome_try_except in *.
    pose proof (ensures_transcribe_pcm_body_decoded p m
                  (TranscribeBase64Request_init audio rate) s) as H.
    destruct (outcome (transcribe_pcm_body p m (TranscribeBase64Request_init audio rate)) s)
      as [r|e]; [|discriminate].
    now exists r.
Qed.

End Texts.

(** X8: the text of every response with status 200 is the first string the
    decoder returned for the request, with the whitespace at its two ends
    removed: it neither starts nor ends with a whitespace character. *)
Theorem text_is_stripped rt (s : State rt) (req : Request) :
  is_transcription req = true ->
  status_code (snd (serve rt req s)) = 200 ->
  exists p predicted_ids transcription others,
    processor s = Some p
    /\ batch_decode rt p predicted_ids = Ok (transcription :: others)
    /\ content (snd (serve rt req s))
       = JSON [(lit "text", JString (strip transcription));
               (lit "language", JString (lit "is"))]
    /\ trimmed (strip transcription)
    /\ exists l r,
        transcription = l ++ strip transcription ++ r
        /\ forallb isspace l = true /\ forallb isspace r = true.
Proof.
  intros Hreq Hs.
  destruct (ok_response_decoded rt s req Hreq Hs)
    as (p & r & Hp & (ids & t & others & Hd & ->) & Hc).
  exists p, ids, t, others. repeat split; try assumption.
  - apply strip_trimmed.
  - apply strip_trimmed.
  - apply strip_middle.
Qed.

Lemma text_is_stripped_witness :
  exists t, content (snd (serve (Fake.runtime true) (POST_transcribe Fake.mono_16000)
                           (Fake.ready true)))
            = JSON [(lit "text", JString t); (lit "language", JString (lit "is"))]
            /\ trimmed t.
Proof.
  destruct (text_is_stripped (Fake.runtime true) (Fake.ready true)
              (POST_transcribe Fake.mono_16000) eq_refl eq_refl)
    as (p & ids & t & others & _ & _ & Hc & Ht & _).
  exists (strip t). split; [exact Hc | exact Ht].
Defined.

(** X9: if the decoder returns an empty batch, indexing it fails and the
    request is answered with status 500: with the model loaded, a runtime
    whose [batch_decode] never returns a string answers no transcription
    request with 200. *)
Theorem empty_batch_gives_500 rt (s : State rt) p m (req : Request) :
  processor s = Some p -> model s = Some m ->
  (forall predicted_ids, batch_decode rt p predicted_ids = Ok []) ->
  is_transcription req = true ->
  status_code (snd (serve rt req s)) = 500.
Proof.
  intros Hp Hm Hempty Hreq.
  destruct (loaded_status rt s p m req Hp Hm Hreq) as [E|E]; [|exact E].
  destruct (ok_response_decoded rt s req Hreq E)
    as (p' & r & Hp' & (ids & t & others & Hd & _) & _).
  rewrite Hp in Hp'. injection Hp' as <-.
  rewrite Hempty in Hd. discriminate.
Qed.

Lemma empty_batch_gives_500_witness :
  status_code (snd (serve runtime_without_text (POST_transcribe_pcm Fake.four_samples None)
                      (@Build_State runtime_without_text (Some tt) (Some tt) true [])))
  = 500.
Proof.
  apply (empty_batch_gives_500 runtime_without_text
           (@Build_State runtime_without_text (Some tt) (Some tt) true []) tt tt
           (POST_transcribe_pcm Fake.four_samples None) eq_refl eq_refl
           (fun _ => eq_refl) eq_refl).
Defined.

(** ** The order of the library calls *)

Section Shapes.

Variable rt : Runtime.
Implicit Types s : State rt.

Lemma prefixed_ret A (a : A) full : prefixed (rt := rt) full (ret a).
Proof. intros s. exists [], (Ok a), full. split; [apply steps_ret | reflexivity]. Qed.

Lemma prefixed_raise A (e : exn) full : prefixed (rt := rt) full (raise (A := A) e).
Proof. intros s. exists [], (Raise e), full. split; [apply steps_raise | reflexivity]. Qed.

Lemma prefixed_call_bind A B (c : Call) (r : result A) (k : A -> M rt B) full :
  (forall a, prefixed full (k a)) -> prefixed (c :: full) (bind (call c r) k).
Proof.
  intros Hk s. destruct r as [a|e].
  - destruct (Hk a (add_calls s [c])) as (l & r & rest & H & E).
    exists (c :: l), r, rest. split; [|simpl; now rewrite E].
    apply steps_bind with (l1 := [c]) (a := a) (l2 := l); [apply steps_call | exact H].
  - exists [c], (Raise e), full. split; [|reflexivity].
    apply steps_bind_raise, steps_call.
Qed.

Lemma prefixed_infer p m audio : prefixed (inference_calls audio) (infer (rt := rt) p m audio).
Proof.
  unfold infer, inference_calls.
  do 4 (apply prefixed_call_bind; intros).
  destruct a2; [apply prefixed_raise | apply prefixed_ret].
Qed.

Lemma decoding_ret A (a : A) : decoding (rt := rt) (ret a).
Proof. intros s. exists [], (Ok a). split; [apply steps_ret | reflexivity]. Qed.

Lemma decoding_lift A (r : result A) : decoding (rt := rt) (lift r).
Proof. intros s. exists [], r. split; [apply steps_lift | reflexivity]. Qed.

Lemma decoding_get A (g : State rt -> A) : decoding (get g).
Proof. intros s. exists [], (Ok (g s)). split; [apply steps_get | reflexivity]. Qed.

Lemma decoding_call A (c : Call) (r : result A) :
  is_decoding_call c = true -> decoding (rt := rt) (call c r).
Proof.
  intros H s. exists [c], r. split; [apply steps_call|]. simpl. now rewrite H.
Qed.

Lemma decoding_bind A B (m : M rt A) (k : A -> M rt B) :
  decoding m -> (forall a, decoding (k a)) -> decoding (bind m k).
Proof.
  intros Hm Hk s. destruct (Hm s) as (l1 & [a|e] & H1 & D1).
  - destruct (Hk a (add_calls s l1)) as (l2 & r & H2 & D2).
    exists (l1 ++ l2), r. split; [eapply steps_bind; eauto|].
    now rewrite forallb_app, D1, D2.
  - exists l1, (Raise e). split; [now apply steps_bind_raise | exact D1].
Qed.

Lemma shaped_raise A (e : exn) : shaped (rt := rt) (raise (A := A) e).
Proof.
  intros s. exists [], (Raise e). split; [apply steps_raise|].
  exists [], [], (Array1 []), (inference_calls (Array1 [])). repeat split.
Qed.

Lemma shaped_infer p m audio : shaped (infer (rt := rt) p m audio).
Proof.
  intros s. destruct (prefixed_infer p m audio s) as (l & r & rest & H & E).
  exists l, r. split; [exact H|]. exists [], l, audio, rest. repeat split. exact E.
Qed.

Lemma shaped_bind A B (m : M rt A) (k : A -> M rt B) :
  decoding m -> (forall a, shaped (k a)) -> shaped (bind m k).
Proof.
  intros Hm Hk s. destruct (Hm s) as (l1 & [a|e] & H1 & D1).
  - destruct (Hk a (add_calls s l1)) as (l2 & r & H2 & (d & i & audio & rest & -> & D2 & E)).
    exists (l1 ++ d ++ i), r. split; [eapply steps_bind; eauto|].
    exists (l1 ++ d), i, audio, rest. rewrite app_assoc, forallb_app, D1, D2.
    repeat split. exact E.
  - exists l1, (Raise e). split; [now apply steps_bind_raise|].
    exists l1, [], (Array1 []), (inference_calls (Array1 [])).
    rewrite app_nil_r. repeat split. exact D1.
Qed.

Lemma shaped_try_except A (body : M rt A) :
  shaped body -> shaped (try_except body internal_error).
Proof.
  intros Hb s. destruct (Hb s) as (l & r & H & S).
  destruct (try_except_steps rt A body s l r H) as (r' & H').
  now exists l, r'.
Qed.

Lemma shaped_resample_then_infer p m audio rate :
  shaped (rt := rt) (bind (if negb (rate =? 16000)
                then bind (lift (import_librosa rt))
                       (fun _ => call (Call_resample audio rate 16000)
                                   (librosa_resample rt audio rate 16000))
                else ret audio)
            (fun audio' => infer p m audio')).
Proof.
  apply shaped_bind; [|intros; apply shaped_infer].
  destruct (negb (rate =? 16000)); [|apply decoding_ret].
  apply decoding_bind; [apply decoding_lift | intros; now apply decoding_call].
Qed.

Lemma shaped_transcribe_audio file : shaped (transcribe_audio rt file).
Proof.
  unfold transcribe_audio.
  apply shaped_bind; [apply decoding_get | intros m].
  apply shaped_bind; [apply decoding_get | intros p].
  destruct m as [m|]; [destruct p as [p|]|]; try apply shaped_raise.
  apply shaped_try_except. unfold transcribe_audio_body.
  apply shaped_bind; [now apply decoding_call | intros audio_bytes].
  apply shaped_bind; [now apply decoding_call | intros [audio rate]].
  apply shaped_bind; [|intros; apply shaped_resample_then_infer].
  destruct (1 <? ndim audio); [apply decoding_lift | apply decoding_ret].
Qed.

Lemma shaped_transcribe_pcm request : shaped (transcribe_pcm rt request).
Proof.
  unfold transcribe_pcm.
  apply shaped_bind; [apply decoding_get | intros m].
  apply shaped_bind; [apply decoding_get | intros p].
  destruct m as [m|]; [destruct p as [p|]|]; try apply shaped_raise.
  apply shaped_try_except. unfold transcribe_pcm_body.
  apply shaped_bind; [now apply decoding_call | intros audio_bytes].
  apply shaped_bind; [now apply decoding_call | intros audio_int16].
  apply shaped_bind; [apply decoding_ret | intros; apply shaped_resample_then_infer].
Qed.

End Shapes.

Lemma request_calls_never_load (l : list Call) :
  request_calls l -> ~ In Call_from_pretrained l.
Proof.
  intros (l1 & l2 & audio & rest & -> & D & E) H.
  apply in_app_or in H. destruct H as [H|H].
  - rewrite forallb_forall in D. specialize (D _ H). discriminate.
  - assert (Hin : In Call_from_pretrained (inference_calls audio)).
    { rewrite <- E. apply in_or_app. now left. }
    simpl in Hin. intuition discriminate.
Qed.

(** X10: the library calls of one transcription request are, in this order:
    calls that read and decode the audio (file read, [sf.read],
    [b64decode], [frombuffer], the resampler), then a prefix of the
    processor called with [sampling_rate=16000], the move to the device,
    [generate] and [batch_decode], each at most once.  No request loads a
    model. *)
Theorem calls_in_order rt (s : State rt) (req : Request) :
  is_transcription req = true ->
  exists l,
    fst (serve rt req s) = add_calls s l
    /\ (exists l1 l2 audio rest,
           l = l1 ++ l2
           /\ forallb is_decoding_call l1 = true
           /\ l2 ++ rest
              = [Call_processor audio 16000; Call_to; Call_generate; Call_batch_decode])
    /\ ~ In Call_from_pretrained l.
Proof.
  intros Hreq. destruct req as [|file|audio rate]; [discriminate| |]; unfold serve.
  - destruct (shaped_transcribe_audio rt file s) as (l & r & H & S).
    unfold steps in H. rewrite H. exists l. split; [reflexivity|].
    split; [exact S | now apply request_calls_never_load].
  - destruct (shaped_transcribe_pcm rt (TranscribeBase64Request_init audio rate) s)
      as (l & r & H & S).
    unfold steps in H. rewrite H. exists l. split; [reflexivity|].
    split; [exact S | now apply request_calls_never_load].
Qed.

Lemma calls_in_order_witness :
  exists l,
    fst (serve (Fake.runtime true) (POST_transcribe Fake.stereo_44100) (Fake.ready true))
    = add_calls (Fake.ready true) l
    /\ ~ In Call_from_pretrained l.
Proof.
  destruct (calls_in_order (Fake.runtime true) (Fake.ready true)
              (POST_transcribe Fake.stereo_44100) eq_refl) as (l & H & _ & Hn).
  exists l. split; [exact H | exact Hn].
Defined.

(** ** Base64: encoding and decoding *)

Lemma all_sextets_ok : all_from 64 0 sextet_ok = true.
Proof. vm_compute. reflexivity. Qed.

Lemma all_byte_bits_ok : all_from 256 0 byte_bits_ok = true.
Proof. vm_compute. reflexivity. Qed.

Lemma all_byte_pair_bits_ok :
  all_from 256 0 (fun z0 => all_from 256 0 (byte_pair_bits_ok z0)) = true.
Proof. vm_compute. reflexivity. Qed.

Lemma b64char_spec (v : N) :
  (v < 64)%N ->
  Base64.table_a2b_base64 (b64char v) = Some v
  /\ (b64char v =? Base64.BASE64_PAD)%N = false
  /\ (b64char v <? 128)%N = true.
Proof.
  intros Hv.
  assert (H : sextet_ok (Z.of_N v) = true).
  { apply (all_from_spec _ _ _ all_sextets_ok). lia. }
  unfold sextet_ok in H. rewrite N2Z.id in H.
  apply andb_prop in H. destruct H as [H H3].
  apply andb_prop in H. destruct H as [H1 H2].
  destruct (Base64.table_a2b_base64 (b64char v)) as [v'|]; [|discriminate].
  apply N.eqb_eq in H1. subst v'.
  split; [reflexivity|]. split; [|exact H3].
  now apply negb_true_iff in H2.
Qed.

Lemma byte_of_to_N (b : byte) : Base64.byte_of_N (Byte.to_N b) = b.
Proof.
  unfold Base64.byte_of_N. pose proof (Byte.to_N_bounded b) as H.
  rewrite N.mod_small by lia. now rewrite Byte.of_to_N.
Qed.

Lemma to_N_byte_of_N (n : N) : Byte.to_N (Base64.byte_of_N n) = (n mod 256)%N.
Proof.
  unfold Base64.byte_of_N.
  destruct (Byte.of_N (n mod 256)) as [b|] eqn:E.
  - now apply Byte.to_of_N.
  - apply Byte.of_N_None_iff in E.
    pose proof (N.mod_upper_bound n 256). lia.
Qed.

Lemma byte_bits (b : byte) :
  let n := Byte.to_N b in
  (N.lor (N.shiftl (N.shiftr n 2) 2) (N.land n 3) = n
   /\ N.lor (N.shiftl (N.shiftr n 4) 4) (N.land n 15) = n
   /\ N.lor (N.shiftl (N.shiftr n 6) 6) (N.land n 63) = n
   /\ N.shiftr (N.shiftl (N.land n 3) 4) 4 = N.land n 3
   /\ N.shiftr (N.shiftl (N.land n 15) 2) 2 = N.land n 15
   /\ N.shiftr n 2 < 64 /\ N.land n 63 < 64
   /\ N.shiftl (N.land n 3) 4 < 64 /\ N.shiftl (N.land n 15) 2 < 64)%N.
Proof.
  intros n. pose proof (Byte.to_N_bounded b) as Hb. fold n in Hb.
  assert (H : byte_bits_ok (Z.of_N n) = true).
  { apply (all_from_spec _ _ _ all_byte_bits_ok). lia. }
  unfold byte_bits_ok in H. rewrite N2Z.id in H.
  repeat match type of H with
         | (_ && _)%bool = true => apply andb_prop in H; destruct H as [H ?]
         end.
  repeat match goal with
         | H : (_ =? _)%N = true |- _ => apply N.eqb_eq in H
         | H : (_ <? _)%N = true |- _ => apply N.ltb_lt in H
         end.
  repeat split; assumption.
Qed.

Lemma byte_pair_bits (b0 b1 : byte) :
  let n0 := Byte.to_N b0 in
  let n1 := Byte.to_N b1 in
  (N.shiftr (N.lor (N.shiftl (N.land n0 3) 4) (N.shiftr n1 4)) 4 = N.land n0 3
   /\ N.land (N.lor (N.shiftl (N.land n0 3) 4) (N.shiftr n1 4)) 15 = N.shiftr n1 4
   /\ N.shiftr (N.lor (N.shiftl (N.land n0 15) 2) (N.shiftr n1 6)) 2 = N.land n0 15
   /\ N.land (N.lor (N.shiftl (N.land n0 15) 2) (N.shiftr n1 6)) 3 = N.shiftr n1 6
   /\ N.lor (N.shiftl (N.land n0 3) 4) (N.shiftr n1 4) < 64
   /\ N.lor (N.shiftl (N.land n0 15) 2) (N.shiftr n1 6) < 64)%N.
Proof.
  intros n0 n1.
  pose proof (Byte.to_N_bounded b0) as Hb0. fold n0 in Hb0.
  pose proof (Byte.to_N_bounded b1) as Hb1. fold n1 in Hb1.
  assert (H0 : all_from 256 0 (byte_pair_bits_ok (Z.of_N n0)) = true).
  { apply (all_from_spec _ _ _ all_byte_pair_bits_ok). lia. }
  assert (H : byte_pair_bits_ok (Z.of_N n0) (Z.of_N n1) = true).
  { apply (all_from_spec _ _ _ H0). lia. }
  unfold byte_pair_bits_ok in H. rewrite !N2Z.id in H.
  repeat match type of H with
         | (_ && _)%bool = true => apply andb_prop in H; destruct H as [H ?]
         end.
  repeat match goal with
         | H : (_ =? _)%N = true |- _ => apply N.eqb_eq in H
         | H : (_ <? _)%N = true |- _ => apply N.ltb_lt in H
         end.
  repeat split; assumption.
Qed.

(** Decoding one character of the alphabet. *)
Lemma loop_b64char v rest quad_pos leftchar pads out :
  (v < 64)%N ->
  Base64.a2b_base64_loop (b64char v :: rest) quad_pos leftchar pads out
  = (if quad_pos =? 0 then Base64.a2b_base64_loop rest 1 v 0 out
     else if quad_pos =? 1 then
       Base64.a2b_base64_loop rest 2 (N.land v 15) 0
         (Base64.byte_of_N (N.lor (N.shiftl leftchar 2) (N.shiftr v 4)) :: out)
     else if quad_pos =? 2 then
       Base64.a2b_base64_loop rest 3 (N.land v 3) 0
         (Base64.byte_of_N (N.lor (N.shiftl leftchar 4) (N.shiftr v 2)) :: out)
     else
       Base64.a2b_base64_loop rest 0 0 0
         (Base64.byte_of_N (N.lor (N.shiftl leftchar 6) v) :: out))%N.
Proof.
  intros Hv. destruct (b64char_spec v Hv) as (Ht & Hp & _).
  now apply loop_alphabet.
Qed.

(** Induction on buffers, three bytes at a time. *)
Lemma triples_ind (A : Type) (P : list A -> Prop) :
  P [] -> (forall a, P [a]) -> (forall a b, P [a; b]) ->
  (forall a b c l, P l -> P (a :: b :: c :: l)) ->
  forall l, P l.
Proof.
  intros H0 H1 H2 H3.
  assert (H : forall l, P l /\ (forall a, P (a :: l)) /\ (forall a b, P (a :: b :: l))).
  { induction l as [|c l (IH0 & IH1 & IH2)]; repeat split; auto. }
  intros l. apply H.
Qed.

Lemma b64encode_triple b0 b1 b2 rest :
  b64encode (b0 :: b1 :: b2 :: rest)
  = b64char (N.shiftr (Byte.to_N b0) 2)
    :: b64char (N.lor (N.shiftl (N.land (Byte.to_N b0) 3) 4) (N.shiftr (Byte.to_N b1) 4))
    :: b64char (N.lor (N.shiftl (N.land (Byte.to_N b1) 15) 2) (N.shiftr (Byte.to_N b2) 6))
    :: b64char (N.land (Byte.to_N b2) 63)
    :: b64encode rest.
Proof. reflexivity. Qed.

Lemma decode_encode_loop (data : bytes) : forall out,
  Base64.a2b_base64_loop (b64encode data) 0 0 0 out = Ok (rev out ++ data).
Proof.
  induction data as [| b0 | b0 b1 | b0 b1 b2 rest IH] using triples_ind; intros out.
  - simpl. now rewrite app_nil_r.
  - destruct (byte_bits b0) as (E0 & _ & _ & E3 & _ & B0 & _ & B1 & _).
    cbn [b64encode].
    rewrite (loop_b64char _ _ _ _ _ _ B0). cbn [N.eqb].
    rewrite (loop_b64char _ _ _ _ _ _ B1). cbn [N.eqb Pos.eqb].
    rewrite E3, E0, byte_of_to_N.
    cbn. rewrite <- ?app_assoc. reflexivity.
  - destruct (byte_bits b0) as (E0 & _ & _ & _ & _ & B0 & _ & _ & _).
    destruct (byte_bits b1) as (_ & E1 & _ & _ & E4 & _ & _ & _ & B2).
    destruct (byte_pair_bits b0 b1) as (P0 & P1 & _ & _ & B1 & _).
    cbn [b64encode].
    rewrite (loop_b64char _ _ _ _ _ _ B0). cbn [N.eqb].
    rewrite (loop_b64char _ _ _ _ _ _ B1). cbn [N.eqb Pos.eqb].
    rewrite (loop_b64char _ _ _ _ _ _ B2). cbn [N.eqb Pos.eqb].
    rewrite P0, P1, E4, E0, E1, !byte_of_to_N.
    cbn. rewrite <- ?app_assoc. reflexivity.
  - destruct (byte_bits b0) as (E0 & _ & _ & _ & _ & B0 & _ & _ & _).
    destruct (byte_bits b1) as (_ & E1 & _ & _ & _ & _ & _ & _ & _).
    destruct (byte_bits b2) as (_ & _ & E2 & _ & _ & _ & B3 & _ & _).
    destruct (byte_pair_bits b0 b1) as (P0 & P1 & _ & _ & B1 & _).
    destruct (byte_pair_bits b1 b2) as (_ & _ & P2 & P3 & _ & B2).
    rewrite b64encode_triple.
    rewrite (loop_b64char _ _ _ _ _ _ B0). cbn [N.eqb].
    rewrite (loop_b64char _ _ _ _ _ _ B1). cbn [N.eqb Pos.eqb].
    rewrite (loop_b64char _ _ _ _ _ _ B2). cbn [N.eqb Pos.eqb].
    rewrite (loop_b64char _ _ _ _ _ _ B3). cbn [N.eqb Pos.eqb].
    rewrite P0, P1, P2, P3, E0, E1, E2, !byte_of_to_N.
    rewrite IH. simpl. rewrite <- ?app_assoc. reflexivity.
Qed.

Lemma encode_ascii_all (s : str) :
  forallb (fun c => (c <? 128)%N) s = true -> Base64.encode_ascii s = Some s.
Proof.
  induction s as [|c s IH]; [reflexivity|].
  simpl. intros H. apply andb_prop in H. destruct H as [Hc Hs].
  now rewrite Hc, (IH Hs).
Qed.

Lemma encode_ascii_some (s : str) l :
  Base64.encode_ascii s = Some l -> l = s /\ forallb (fun c => (c <? 128)%N) s = true.
Proof.
  revert l. induction s as [|c s IH]; intros l H.
  - injection H as <-. now split.
  - simpl in H. destruct (c <? 128)%N eqn:Hc; [|discriminate].
    destruct (Base64.encode_ascii s) as [l'|]; [|discriminate].
    injection H as <-. destruct (IH l' eq_refl) as [-> Hs].
    simpl. now rewrite Hc, Hs.
Qed.

Lemma b64encode_ascii (data : bytes) :
  forallb (fun c => (c <? 128)%N) (b64encode data) = true.
Proof.
  induction data as [| b0 | b0 b1 | b0 b1 b2 rest IH] using triples_ind.
  - reflexivity.
  - destruct (byte_bits b0) as (_ & _ & _ & _ & _ & B0 & _ & B1 & _).
    cbn [b64encode forallb].
    rewrite (proj2 (proj2 (b64char_spec _ B0))), (proj2 (proj2 (b64char_spec _ B1))).
    reflexivity.
  - destruct (byte_bits b0) as (_ & _ & _ & _ & _ & B0 & _ & _ & _).
    destruct (byte_bits b1) as (_ & _ & _ & _ & _ & _ & _ & _ & B2).
    destruct (byte_pair_bits b0 b1) as (_ & _ & _ & _ & B1 & _).
    cbn [b64encode forallb].
    rewrite (proj2 (proj2 (b64char_spec _ B0))), (proj2 (proj2 (b64char_spec _ B1))),
      (proj2 (proj2 (b64char_spec _ B2))).
    reflexivity.
  - destruct (byte_bits b0) as (_ & _ & _ & _ & _ & B0 & _ & _ & _).
    destruct (byte_bits b2) as (_ & _ & _ & _ & _ & _ & B3 & _ & _).
    destruct (byte_pair_bits b0 b1) as (_ & _ & _ & _ & B1 & _).
    destruct (byte_pair_bits b1 b2) as (_ & _ & _ & _ & _ & B2).
    rewrite b64encode_triple. cbn [forallb].
    rewrite (proj2 (proj2 (b64char_spec _ B0))), (proj2 (proj2 (b64char_spec _ B1))),
      (proj2 (proj2 (b64char_spec _ B2))), (proj2 (proj2 (b64char_spec _ B3))), IH.
    reflexivity.
Qed.

Lemma is_alphabet_b64char v : (v < 64)%N -> Base64.is_alphabet (b64char v) = true.
Proof.
  intros Hv. unfold Base64.is_alphabet. now rewrite (proj1 (b64char_spec v Hv)).
Qed.

Lemma b64encode_well_formed (data : bytes) : Base64.well_formed (b64encode data) = true.
Proof.
  induction data as [| b0 | b0 b1 | b0 b1 b2 rest IH] using triples_ind.
  - reflexivity.
  - destruct (byte_bits b0) as (_ & _ & _ & _ & _ & B0 & _ & B1 & _).
    cbn [b64encode Base64.well_formed].
    rewrite (is_alphabet_b64char _ B0), (is_alphabet_b64char _ B1).
    cbn. rewrite ?orb_true_r. reflexivity.
  - destruct (byte_bits b0) as (_ & _ & _ & _ & _ & B0 & _ & _ & _).
    destruct (byte_bits b1) as (_ & _ & _ & _ & _ & _ & _ & _ & B2).
    destruct (byte_pair_bits b0 b1) as (_ & _ & _ & _ & B1 & _).
    cbn [b64encode Base64.well_formed].
    rewrite (is_alphabet_b64char _ B0), (is_alphabet_b64char _ B1),
      (is_alphabet_b64char _ B2).
    cbn. rewrite ?orb_true_r. reflexivity.
  - destruct (byte_bits b0) as (_ & _ & _ & _ & _ & B0 & _ & _ & _).
    destruct (byte_bits b2) as (_ & _ & _ & _ & _ & _ & B3 & _ & _).
    destruct (byte_pair_bits b0 b1) as (_ & _ & _ & _ & B1 & _).
    destruct (byte_pair_bits b1 b2) as (_ & _ & _ & _ & _ & B2).
    rewrite b64encode_triple.
    destruct (b64encode rest) as [|e s'] eqn:E.
    + cbn [Base64.well_formed].
      rewrite (is_alphabet_b64char _ B0), (is_alphabet_b64char _ B1),
        (is_alphabet_b64char _ B2), (is_alphabet_b64char _ B3).
      reflexivity.
    + change (Base64.is_alphabet (b64char (N.shiftr (Byte.to_N b0) 2))
              && Base64.is_alphabet
                   (b64char (N.lor (N.shiftl (N.land (Byte.to_N b0) 3) 4)
                               (N.shiftr (Byte.to_N b1) 4)))
              && Base64.is_alphabet
                   (b64char (N.lor (N.shiftl (N.land (Byte.to_N b1) 15) 2)
                               (N.shiftr (Byte.to_N b2) 6)))
              && Base64.is_alphabet (b64char (N.land (Byte.to_N b2) 63))
              && Base64.well_formed (e :: s') = true).
      rewrite (is_alphabet_b64char _ B0), (is_alphabet_b64char _ B1),
        (is_alphabet_b64char _ B2), (is_alphabet_b64char _ B3), IH.
      reflexivity.
Qed.

Lemma b64decode_b64encode_data (data : bytes) :
  Base64.b64decode (b64encode data) = Ok data.
Proof.
  unfold Base64.b64decode, Base64.a2b_base64.
  rewrite (encode_ascii_all _ (b64encode_ascii data)).
  apply (decode_encode_loop data []).
Qed.

(** X11: decoding undoes the standard encoding: for every byte string,
    [b64decode] of its base64 encoding returns that byte string, and the
    encoding is well-formed. *)
Theorem b64decode_b64encode (data : bytes) :
  Base64.b64decode (b64encode data) = Ok data
  /\ Base64.well_formed (b64encode data) = true.
Proof.
  split; [apply b64decode_b64encode_data | apply b64encode_well_formed].
Qed.

(** ** Packing 16-bit samples *)

Lemma int16_of_to_bytes (order : ByteOrder) (i : Z) :
  -32768 <= i <= 32767 ->
  match int16_to_bytes order i with
  | [b0; b1] => Numpy.int16_of_bytes order b0 b1 = i
  | _ => False
  end.
Proof.
  intros Hi. unfold int16_to_bytes, Numpy.int16_of_bytes.
  assert (Hlo : Z.of_N (Byte.to_N (Base64.byte_of_N (Z.to_N ((i mod 65536) mod 256))))
                = (i mod 65536) mod 256).
  { rewrite to_N_byte_of_N.
    pose proof (Z.mod_pos_bound (i mod 65536) 256 ltac:(lia)).
    rewrite N.mod_small by lia. lia. }
  assert (Hhi : Z.of_N (Byte.to_N (Base64.byte_of_N (Z.to_N ((i mod 65536) / 256))))
                = (i mod 65536) / 256).
  { rewrite to_N_byte_of_N.
    pose proof (Z.mod_pos_bound i 65536 ltac:(lia)).
    assert (0 <= (i mod 65536) / 256 < 256)
      by (split; [apply Z.div_pos | apply Z.div_lt_upper_bound]; lia).
    rewrite N.mod_small by lia. lia. }
  pose proof (Z.div_mod (i mod 65536) 256 ltac:(lia)) as Hd.
  assert (Hu : i mod 65536 = i \/ i mod 65536 = i + 65536).
  { destruct (Z_lt_le_dec i 0).
    - right. symmetry. apply Z.mod_unique with (q := -1); lia.
    - left. apply Z.mod_small. lia. }
  destruct order; rewrite Hlo, Hhi;
    match goal with
    | |- context [if ?u <? 32768 then _ else _] => destruct (Z.ltb_spec u 32768)
    end; lia.
Qed.

Lemma items_int16_pack (order : ByteOrder) (samples : list Z) :
  Forall (fun i => -32768 <= i <= 32767) samples ->
  Numpy.items_int16 order (pack_int16 order samples) = Some samples.
Proof.
  induction 1 as [|i samples Hi _ IH]; [reflexivity|].
  cbn [pack_int16].
  pose proof (int16_of_to_bytes order i Hi) as H.
  destruct (int16_to_bytes order i) as [|b0 [|b1 [|b2 l]]]; try contradiction.
  cbn [app Numpy.items_int16]. now rewrite IH, H.
Qed.

(** X12: a client that sends 16-bit samples, packed in the server's byte
    order and base64-encoded, without a sample rate or with 16000, has
    exactly those samples, each divided by 32768, passed to the processor:
    nothing else is on the audio path of the request. *)
Theorem encoded_samples_reach_processor rt (s : State rt) p m (samples : list Z)
    (rate : option Z) :
  processor s = Some p -> model s = Some m ->
  Forall (fun i => -32768 <= i <= 32767) samples ->
  rate = None \/ rate = Some 16000 ->
  audio_path
    (calls_of (transcribe_pcm rt
                 (TranscribeBase64Request_init
                    (b64encode (pack_int16 (byteorder rt) samples)) rate)) s)
  = [Call_processor
       (Array1 (map (fun i => F32.div (F32.of_int i) (F32.of_int 32768)) samples)) 16000].
Proof.
  intros Hp Hm Hs Hr.
  rewrite (transcribe_pcm_path rt s p m _ (pack_int16 (byteorder rt) samples) samples Hp Hm).
  - destruct Hr as [-> | ->]; reflexivity.
  - apply b64decode_b64encode_data.
  - unfold Numpy.frombuffer_int16. now rewrite items_int16_pack.
Qed.

Example b64encode_four_samples : b64encode Fake.four_samples_bytes = Fake.four_samples.
Proof. reflexivity. Qed.

Lemma encoded_samples_reach_processor_witness :
  audio_path
    (calls_of (transcribe_pcm (Fake.runtime true)
                 (TranscribeBase64Request_init
                    (b64encode (pack_int16 little [1; 32767; -32768; -1])) None))
       (Fake.ready true))
  = [Call_processor
       (Array1 (map (fun i => F32.div (F32.of_int i) (F32.of_int 32768))
                  [1; 32767; -32768; -1])) 16000].
Proof.
  apply (encoded_samples_reach_processor (Fake.runtime true) (Fake.ready true) tt tt
           [1; 32767; -32768; -1] None eq_refl eq_refl).
  - repeat constructor; lia.
  - left. reflexivity.
Defined.

(** ** Characters the decoder passes over *)

Lemma encode_ascii_spec (s : str) :
  Base64.encode_ascii s = if forallb (fun c => (c <? 128)%N) s then Some s else None.
Proof.
  induction s as [|c s IH]; [reflexivity|].
  simpl. destruct (c <? 128)%N; [|reflexivity].
  rewrite IH. simpl. now destruct (forallb (fun c0 => (c0 <? 128)%N) s).
Qed.

Lemma loop_skip (c : N) (s2 : list N) :
  (c =? Base64.BASE64_PAD)%N = false ->
  Base64.table_a2b_base64 c = None ->
  forall s1 quad_pos leftchar pads out,
    Base64.a2b_base64_loop (s1 ++ c :: s2) quad_pos leftchar pads out
    = Base64.a2b_base64_loop (s1 ++ s2) quad_pos leftchar pads out.
Proof.
  intros Hp Ht. induction s1 as [|a s1 IH]; intros quad_pos leftchar pads out.
  - cbn [app Base64.a2b_base64_loop]. now rewrite Hp, Ht.
  - cbn [app Base64.a2b_base64_loop].
    destruct (a =? Base64.BASE64_PAD)%N.
    + destruct (2 <=? quad_pos)%N; [|apply IH].
      destruct (4 <=? quad_pos + (pads + 1))%N; [reflexivity | apply IH].
    + destruct (Base64.table_a2b_base64 a) as [v|]; [|apply IH].
      destruct (quad_pos =? 0)%N; [apply IH|].
      destruct (quad_pos =? 1)%N; [apply IH|].
      destruct (quad_pos =? 2)%N; apply IH.
Qed.

Lemma b64decode_skip (c : N) (s1 s2 : str) :
  (c < 128)%N -> Base64.is_alphabet c = false -> c <> Base64.BASE64_PAD ->
  Base64.b64decode (s1 ++ c :: s2) = Base64.b64decode (s1 ++ s2).
Proof.
  intros Hc Ha Hp. unfold Base64.b64decode.
  rewrite !encode_ascii_spec, !forallb_app. cbn [forallb].
  rewrite (proj2 (N.ltb_lt c 128) Hc). cbn [andb].
  destruct (forallb (fun c0 => (c0 <? 128)%N) s1 && forallb (fun c0 => (c0 <? 128)%N) s2);
    [|reflexivity].
  unfold Base64.a2b_base64. apply loop_skip.
  - now apply N.eqb_neq.
  - unfold Base64.is_alphabet in Ha.
    destruct (Base64.table_a2b_base64 c); [discriminate | reflexivity].
Qed.

Section SameDecoding.

Variable rt : Runtime.
Implicit Types s : State rt.

Lemma outcome_bind_call A B (c1 c2 : Call) (r : result A) (k : A -> M rt B) s :
  (forall a, uniform (k a)) ->
  outcome (bind (call c1 r) k) s = outcome (bind (call c2 r) k) s.
Proof.
  intros Hk. unfold outcome, bind, call. destruct r as [a|e]; [|reflexivity].
  match goal with
  | |- snd (k a ?s1) = snd (k a ?s2) =>
      destruct (Hk a s1 s2) as (l & r & H1 & H2); [repeat split|]
  end.
  unfold steps in H1, H2. now rewrite H1, H2.
Qed.

(** The response depends on audio_data through the decoded bytes only. *)
Lemma same_decoding_same_response s (audio1 audio2 : str) (rate : option Z) :
  Base64.b64decode audio1 = Base64.b64decode audio2 ->
  snd (serve rt (POST_transcribe_pcm audio1 rate) s)
  = snd (serve rt (POST_transcribe_pcm audio2 rate) s).
Proof.
  intros H. rewrite !serve_transcribe_pcm. f_equal. unfold outcome.
  destruct (model s) as [m|] eqn:Hm;
    [|now rewrite !(transcribe_pcm_unloaded rt s _ (or_introl Hm))].
  destruct (processor s) as [p|] eqn:Hp;
    [|now rewrite !(transcribe_pcm_unloaded rt s _ (or_intror Hp))].
  rewrite !(transcribe_pcm_loaded rt s p m _ Hp Hm).
  fold (outcome (try_except
                   (transcribe_pcm_body p m (TranscribeBase64Request_init audio1 rate))
                   internal_error) s).
  fold (outcome (try_except
                   (transcribe_pcm_body p m (TranscribeBase64Request_init audio2 rate))
                   internal_error) s).
  rewrite !outcome_try_except.
  assert (E : outcome (transcribe_pcm_body p m (TranscribeBase64Request_init audio1 rate)) s
              = outcome (transcribe_pcm_body p m (TranscribeBase64Request_init audio2 rate)) s).
  { unfold transcribe_pcm_body.
    cbn [audio_data sample_rate TranscribeBase64Request_init].
    rewrite H. apply outcome_bind_call.
    intros audio_bytes. uniform; apply uniform_infer. }
  now rewrite E.
Qed.

End SameDecoding.

(** X13: a character of audio_data that is ASCII but neither in the base64
    alphabet nor the pad character (a blank, a line break, a ['#']) is
    passed over by the decoder wherever it stands: the decoded bytes, and
    with them the response, are those of the string without it. *)
Theorem stray_character_ignored rt (s : State rt) (c : N) (s1 s2 : str) (rate : option Z) :
  (c < 128)%N -> Base64.is_alphabet c = false -> c <> Base64.BASE64_PAD ->
  Base64.b64decode (s1 ++ c :: s2) = Base64.b64decode (s1 ++ s2)
  /\ snd (serve rt (POST_transcribe_pcm (s1 ++ c :: s2) rate) s)
     = snd (serve rt (POST_transcribe_pcm (s1 ++ s2) rate) s).
Proof.
  intros Hc Ha Hp.
  pose proof (b64decode_skip c s1 s2 Hc Ha Hp) as H.
  split; [exact H | now apply same_decoding_same_response].
Qed.

Lemma stray_character_ignored_witness :
  Base64.b64decode (lit "AQD/" ++ 10%N :: lit "fwCA//8=") = Base64.b64decode Fake.four_samples
  /\ snd (serve (Fake.runtime true)
            (POST_transcribe_pcm (lit "AQD/" ++ 10%N :: lit "fwCA//8=") None) (Fake.ready true))
     = snd (serve (Fake.runtime true) (POST_transcribe_pcm Fake.four_samples None)
              (Fake.ready true)).
Proof.
  apply (stray_character_ignored (Fake.runtime true) (Fake.ready true) 10%N
           (lit "AQD/") (lit "fwCA//8=") None).
  - reflexivity.
  - reflexivity.
  - discriminate.
Defined.

(** X14: with the model loaded, an audio_data that contains a character
    outside ASCII is answered with status 500 and the decoder's message, and
    nothing reaches the audio path. *)
Theorem non_ascii_gives_500 rt (s : State rt) p m (audio : str) (rate : option Z) (c : N) :
  processor s = Some p -> model s = Some m ->
  In c audio -> (128 <= c)%N ->
  snd (serve rt (POST_transcribe_pcm audio rate) s)
  = {| status_code := 500;
       content := JSON [(lit "detail",
                         JString (lit "string argument should contain only ASCII characters"))] |}
  /\ audio_path (calls_of (transcribe_pcm rt (TranscribeBase64Request_init audio rate)) s) = [].
Proof.
  intros Hp Hm Hin Hc.
  assert (Hd : Base64.b64decode audio
               = Raise (Exception "ValueError"
                          (lit "string argument should contain only ASCII characters"))).
  { unfold Base64.b64decode. rewrite encode_ascii_spec.
    destruct (forallb (fun c0 => (c0 <? 128)%N) audio) eqn:E; [|reflexivity].
    rewrite forallb_forall in E. specialize (E c Hin).
    apply N.ltb_lt in E. lia. }
  pose proof (transcribe_pcm_b64decode_raises rt s p m
                (TranscribeBase64Request_init audio rate) _ Hd) as H.
  destruct (body_raise_pcm rt s p m audio rate _ _ Hp Hm H) as [H1 H2].
  split; [exact H1|]. cbn [audio_data TranscribeBase64Request_init] in H2.
  rewrite H2. reflexivity.
Qed.

Lemma non_ascii_gives_500_witness :
  snd (serve (Fake.runtime true) (POST_transcribe_pcm [65; 65; 243; 65]%N None) (Fake.ready true))
  = {| status_code := 500;
       content := JSON [(lit "detail",
                         JString (lit "string argument should contain only ASCII characters"))] |}
  /\ audio_path (calls_of (transcribe_pcm (Fake.runtime true)
                             (TranscribeBase64Request_init [65; 65; 243; 65]%N None))
                   (Fake.ready true)) = [].
Proof.
  apply (non_ascii_gives_500 (Fake.runtime true) (Fake.ready true) tt tt
           [65; 65; 243; 65]%N None 243%N eq_refl eq_refl).
  - right. right. left. reflexivity.
  - discriminate.
Defined.
